(** * oneDNN tutorial examples: layout offsets, descriptor checks, reorders

    A shallow embedding of the three example programs of the repository
    (getting started with ReLU, memory format propagation, INT8 matmul)
    and the properties of their offset mapping, their format-matching
    decisions and their result checks. *)

From Stdlib Require Import ZArith QArith Qround Lia List String.
From stdpp Require Import base decidable option list gmap.

Local Open Scope Z_scope.

(** ** Outcomes of C++ code that may throw *)

(** The exceptions the examples can see: [dnnl::error] (thrown by the
    library), [std::logic_error] (thrown by the examples' checks) and a
    [std::string] (the third handler of the getting-started [main]). *)
Inductive exn : Type :=
  | dnnl_error (status : Z)
  | logic_error (what : string)
  | string_exn (what : string).

Inductive outcome (A : Type) : Type :=
  | Ok (a : A)
  | Throw (e : exn).
Arguments Ok {A} a.
Arguments Throw {A} e.

#[global] Instance outcome_ret : MRet outcome := fun _ a => Ok a.
#[global] Instance outcome_bind : MBind outcome := fun _ _ k m =>
  match m with
  | Ok a => k a
  | Throw e => Throw e
  end.

(** How a process ends: [main] returns a code, or an exception leaves
    [main] uncaught and [std::terminate] aborts the process. *)
Inductive termination : Type :=
  | Exited (code : Z)
  | Terminated (e : exn).


(** [for (int i = lo; i < lo + count; ++i) body(i)], leaving at the first
    exception. *)
Fixpoint for_range (count : nat) (i : Z) (body : Z -> outcome unit) : outcome unit :=
  match count with
  | O => Ok tt
  | S count' => body i ;; for_range count' (i + 1) body
  end.

(** ** 32-bit [int] arithmetic *)

Module Int.

Definition wrap (z : Z) : Z := (z + 2 ^ 31) mod 2 ^ 32 - 2 ^ 31.
Definition in_range (z : Z) : Prop := - 2 ^ 31 <= z < 2 ^ 31.
Definition add (a b : Z) : Z := wrap (a + b).
Definition mul (a b : Z) : Z := wrap (a * b).

End Int.

(** ** Layout descriptor *)

Module Layout.

Inductive data_type : Type := f32 | s32 | s8 | u8.
Inductive format_tag : Type := any | ab | nchw | nhwc | oihw.

Inductive layout_error : Type :=
  | InvalidLayoutName
  | RankMismatch
  | IndexOutOfRange.

(** Modelled from the spec: the library's layout types are not part of
    the sources. A layout is resolved to its stride vector, one stride
    per logical dimension. *)
Record Layout : Type := { strides : list Z }.

(** Modelled from the spec: the order of the logical dimensions of a
    canonical name, from the slowest-varying to the fastest-varying
    one; the library's table of format tags is not part of the
    sources. *)
Definition dim_order (rank : nat) (name : format_tag) : option (list nat) :=
  match name, rank with
  | ab, 2%nat => Some [0; 1]%nat
  | nchw, 4%nat => Some [0; 1; 2; 3]%nat
  | oihw, 4%nat => Some [0; 1; 2; 3]%nat
  | nhwc, 4%nat => Some [0; 2; 3; 1]%nat
  | _, _ => None
  end.

(** Modelled from the spec: walks the dimensions from the
    fastest-varying one; each gets the product of the extents of the
    dimensions already walked. *)
Fixpoint strides_from_fastest (shape : list Z) (fastest_first : list nat)
    (acc : Z) (out : list Z) : list Z :=
  match fastest_first with
  | [] => out
  | d :: rest =>
      strides_from_fastest shape rest
        (acc * default 1 (shape !! d)) (<[d := acc]> out)
  end.

(** Modelled from the spec: the library's descriptor constructor from a
    format tag is not part of the sources; [make_canonical] resolves a
    canonical name to the strides it implies. *)
Definition make_canonical (shape : list Z) (name : format_tag)
    : layout_error + Layout :=
  match dim_order (length shape) name with
  | None => inl InvalidLayoutName
  | Some order =>
      inr {| strides :=
               strides_from_fastest shape (rev order) 1
                 (replicate (length shape) 0) |}
  end.

(** Modelled from the spec: the library's descriptor constructor from
    explicit strides. *)
Definition make_strided (shape : list Z) (strides : list Z)
    : layout_error + Layout :=
  if decide (length strides = length shape)
  then inr {| strides := strides |}
  else inl RankMismatch.

Definition Zlist_eqb (a b : list Z) : bool := bool_decide (a = b).

(** Modelled from the spec: descriptor comparison, element-wise on the
    resolved stride vectors. *)
Definition equals (a b : Layout) : bool := Zlist_eqb (strides a) (strides b).

Definition dot (indices strides : list Z) : Z :=
  foldr Z.add 0 (zip_with Z.mul indices strides).

Definition index_ok (i extent : Z) : bool := (0 <=? i) && (i <? extent).

Definition indices_ok (shape indices : list Z) : bool :=
  bool_decide (length indices = length shape)
  && forallb (fun p => index_ok (fst p) (snd p)) (zip indices shape).

(** Modelled from the spec: the library's memory descriptor, not part
    of the sources: logical dimensions, data type and resolved layout,
    compared by value. *)
Record memory_desc : Type := {
  dims : list Z;
  dtype : data_type;
  layout : Layout
}.

#[global] Instance data_type_eq_dec : EqDecision data_type.
Proof. solve_decision. Defined.
#[global] Instance Layout_eq_dec : EqDecision Layout.
Proof. solve_decision. Defined.
#[global] Instance memory_desc_eq_dec : EqDecision memory_desc.
Proof. solve_decision. Defined.

(** Modelled from the spec: the spec's checked offset,
    [sum(indices[i] * strides[i])] with its [IndexOutOfRange] failure. *)
Definition offset (l : Layout) (shape indices : list Z) : layout_error + Z :=
  if indices_ok shape indices
  then inr (dot indices (strides l))
  else inl IndexOutOfRange.

End Layout.

(** ** Getting started: ReLU on a channel-last image *)

Module GettingStarted.

Definition N : Z := 1.
Definition H : Z := 13.
Definition W : Z := 13.
Definition C : Z := 3.
Definition stride_N : Z := Int.mul (Int.mul H W) C.
Definition stride_H : Z := Int.mul W C.
Definition stride_W : Z := C.
Definition stride_C : Z := 1.

(** The lambda [offset] of the tutorial, term by term. *)
Definition offset (n h w c : Z) : Z :=
  Int.add (Int.add (Int.add (Int.mul n stride_N) (Int.mul h stride_H))
                   (Int.mul w stride_W))
          stride_C.

Definition image_size : Z := Int.mul (Int.mul (Int.mul N H) W) C.

(** The logical shape and the stride vector handed to the library, both
    in the order {N, C, H, W}. *)
Definition logical_dims : list Z := [N; C; H; W].
Definition explicit_strides : list Z := [stride_N; stride_C; stride_H; stride_W].

Definition valid_index (n h w c : Z) : Prop :=
  0 <= n < N /\ 0 <= h < H /\ 0 <= w < W /\ 0 <= c < C.

(** [offset] has no failing path: seen as a fallible operation it
    yields its [int] on every call. *)
Definition offset_call (n h w c : Z) : Layout.layout_error + Z :=
  inr (offset n h w c).

(** [std::vector<float>] contents: finite [float] values are taken as
    the rationals they denote; the example only compares them. *)
Definition read (v : list Q) (off : Z) : Q := default 0%Q (v !! Z.to_nat off).
Definition write (v : list Q) (off : Z) (x : Q) : list Q := <[Z.to_nat off := x]> v.

(** A counted loop that threads a value through its body. *)
Fixpoint fold_range {St : Type} (count : nat) (i : Z) (body : Z -> St -> St) (s : St) : St :=
  match count with
  | O => s
  | S count' => fold_range count' (i + 1) body (body i s)
  end.

Definition accuracy_failed : exn := logic_error "Accuracy check failed.".
Definition descriptor_mismatch : exn :=
  logic_error "Memory descriptor initialization mismatch.".

(** [float expected = image[off] < 0 ? 0.f : image[off]] *)
Definition expected (x : Q) : Q := if Qlt_le_dec x 0 then 0%Q else x.

(** The body of the innermost checking loop. *)
Definition check_element (image relu_image : list Q) (n h w c : Z) : outcome unit :=
  let off := offset n h w c in
  if negb (Qeq_bool (read relu_image off) (expected (read image off)))
  then Throw accuracy_failed
  else Ok tt.

(** The four nested loops that check the result. *)
Definition check_result (image relu_image : list Q) : outcome unit :=
  for_range (Z.to_nat N) 0 (fun n =>
  for_range (Z.to_nat H) 0 (fun h =>
  for_range (Z.to_nat W) 0 (fun w =>
  for_range (Z.to_nat C) 0 (fun c =>
    check_element image relu_image n h w c)))).

Definition construct (r : Layout.layout_error + Layout.Layout) : outcome Layout.Layout :=
  match r with
  | inr l => Ok l
  | inl _ => Throw (dnnl_error 2)
  end.

(** The consistency check between the two descriptors of the source. *)
Definition descriptor_check : outcome unit :=
  src_md ← construct (Layout.make_canonical logical_dims Layout.nhwc);
  alt_src_md ← construct (Layout.make_strided logical_dims explicit_strides);
  if negb (Layout.equals src_md alt_src_md)
  then Throw descriptor_mismatch
  else Ok tt.

Section Tutorial.

(** [wave off] stands for [-std::cos(off / 10.f)]. *)
Variable wave : Z -> Q.
(** The library's part of the run, from wrapping the image in
    [src_mem] to reading [dst_mem] back: the contents read back after
    the ReLU primitive, or a [dnnl::error]. *)
Variable relu_execute : list Q -> outcome (list Q).

(** The four nested loops that fill the image. *)
Definition init_image (image : list Q) : list Q :=
  fold_range (Z.to_nat N) 0 (fun n =>
  fold_range (Z.to_nat H) 0 (fun h =>
  fold_range (Z.to_nat W) 0 (fun w =>
  fold_range (Z.to_nat C) 0 (fun c img =>
    let off := offset n h w c in
    write img off (wave off))))) image.

Definition getting_started_tutorial : outcome unit :=
  let image := init_image (replicate (Z.to_nat image_size) 0%Q) in
  descriptor_check;;
  relu_image ← relu_execute image;
  check_result image relu_image.

(** [main]: a [dnnl::error] gives exit code 1, a [std::string] exit
    code 2; no handler takes a [std::logic_error]. *)
Definition main : termination :=
  match getting_started_tutorial with
  | Ok _ => Exited 0
  | Throw (dnnl_error _) => Exited 1
  | Throw (string_exn _) => Exited 2
  | Throw (logic_error what) => Terminated (logic_error what)
  end.

End Tutorial.

End GettingStarted.

(** ** INT8 matmul fused with ReLU *)

Module Int8Matmul.

(** The dimensions are [int64_t]; the products M * N and M * K of the
    example stay far from its range and are taken in [Z]. *)
Definition number_of_runs : nat := 1.
Definition zp_A : Z := 128.
Definition zp_C : Z := 40.

Definition readZ (v : list Z) (i : Z) : Z := default 0 (v !! Z.to_nat i).

(** [for (i = 0; i < M * N; ++i) if (C_u8[i] < zp_C) return 1; return 0;] *)
Fixpoint check_from (count : nat) (i : Z) (C_u8 : list Z) : Z :=
  match count with
  | O => 0
  | S count' =>
      if readZ C_u8 i <? zp_C then 1 else check_from count' (i + 1) C_u8
  end.

(** The values the random initialisers hand out: the weights, and for
    each value of M the source matrix and the scales. *)
Record draws : Type := {
  B_f32 : list Q;
  A_u8_of : Z -> list Z;
  scales_f32_of : Z -> list Q
}.

(** [std::vector<T> v(n)]: a negative [n], converted to [size_t], is
    beyond [max_size()] and the constructor throws [std::length_error],
    which is a [std::logic_error]. *)
Definition length_error : exn :=
  logic_error "cannot create std::vector larger than max_size()".

Definition vector_alloc (n : Z) : outcome unit :=
  if n <? 0 then Throw length_error else Ok tt.

Section Example.

(** The library's primitives: the matmul on M, N, K, the source, the
    weights, the scales and the two zero points, and the reorder that
    packs the weights. Either may throw a [dnnl::error]. *)
Variable matmul_execute :
  Z -> Z -> Z -> list Z -> list Z -> list Q -> Z -> Z -> outcome (list Z).
Variable reorder_execute : list Q -> outcome (list Z).

(** The loop over [number_of_runs]; every run writes [C_u8]. *)
Fixpoint run_loop (runs : nat) (M N K : Z) (A_u8 B_s8 : list Z)
    (scales_f32 : list Q) (C_u8 : list Z) : outcome (list Z) :=
  match runs with
  | O => Ok C_u8
  | S runs' =>
      C_u8' ← matmul_execute M N K A_u8 B_s8 scales_f32 zp_A zp_C;
      run_loop runs' M N K A_u8 B_s8 scales_f32 C_u8'
  end.

(** The vectors [A_u8(M * K)], [C_u8(M * N)] and [scales_f32(N)] are
    created first; their random contents are the arguments [A_u8] and
    [scales_f32]. *)
Definition infer (M N K : Z) (B_s8 A_u8 : list Z) (scales_f32 : list Q)
    : outcome Z :=
  vector_alloc (M * K);;
  vector_alloc (M * N);;
  vector_alloc N;;
  C_u8 ← run_loop number_of_runs M N K A_u8 B_s8 scales_f32
           (replicate (Z.to_nat (M * N)) 0);
  Ok (check_from (Z.to_nat (M * N)) 0 C_u8).

(** [for (int64_t M : {1, 100}) rc |= infer(...)] *)
Fixpoint infer_all (Ms : list Z) (N K : Z) (B_s8 : list Z) (d : draws) (rc : Z)
    : outcome Z :=
  match Ms with
  | [] => Ok rc
  | M :: Ms' =>
      r ← infer M N K B_s8 (A_u8_of d M) (scales_f32_of d M);
      infer_all Ms' N K B_s8 d (Z.lor rc r)
  end.

Definition inference_int8_matmul (d : draws) : outcome Z :=
  let K := 96 in
  let N := 1000 in
  B_s8 ← reorder_execute (B_f32 d);
  infer_all [1; 100] N K B_s8 d 0.

(** What the process shows: the lines on standard output and how it
    ends. *)
Record process : Type := { stdout : list string; ending : termination }.

Definition main (d : draws) : process :=
  match inference_int8_matmul d with
  | Ok rc =>
      {| stdout := [if decide (rc = 0) then "passed"%string else "failed"%string];
         ending := Exited 0 |}
  | Throw (dnnl_error _) => {| stdout := []; ending := Exited 0 |}
  | Throw e => {| stdout := []; ending := Terminated e |}
  end.

End Example.

(** *** The operation the primitive is created for *)










End Int8Matmul.

(** ** Memory format propagation: convolution followed by pooling *)

Module Propagation.

Import Layout.

(** Modelled from the spec: the argument tags of the library header,
    which is not part of the sources; [DNNL_ARG_FROM] is the library's
    alias of [DNNL_ARG_SRC] and [DNNL_ARG_TO] of [DNNL_ARG_DST]. *)
Definition DNNL_ARG_SRC : Z := 1.
Definition DNNL_ARG_FROM : Z := 1.
Definition DNNL_ARG_DST : Z := 17.
Definition DNNL_ARG_TO : Z := 17.
Definition DNNL_ARG_WEIGHTS : Z := 33.

(** A [dnnl::memory] object is a handle: copying the object shares the
    buffer it designates. *)
Record memory : Type := { get_desc : memory_desc; handle : nat }.

Inductive primitive_kind : Type := reorder_k | convolution_k | pooling_k.

Inductive event : Type :=
  | allocated (m : memory)
  | executed (k : primitive_kind) (args : list (Z * memory))
  | waited.

(** The engine: the buffers behind the handles, the next free handle
    and what has been done so far (latest first). *)
Record engine : Type := {
  heap : gmap nat (list Q);
  next_handle : nat;
  history : list event
}.

Definition empty_engine : engine :=
  {| heap := ∅; next_handle := 0; history := [] |}.

Definition prog (A : Type) : Type := engine -> outcome (A * engine).

#[global] Instance prog_ret : MRet prog := fun _ a st => Ok (a, st).
#[global] Instance prog_bind : MBind prog := fun _ _ k m st =>
  match m st with
  | Ok (a, st') => k a st'
  | Throw e => Throw e
  end.

Definition raise {A : Type} (e : exn) : prog A := fun _ => Throw e.

(** What a primitive descriptor reports. *)
Record primitive_desc : Type := {
  src_desc : memory_desc;
  weights_desc : memory_desc;
  dst_desc : memory_desc;
  scratchpad_desc : memory_desc
}.

(** Modelled from the spec: the library's primitives are not part of
    the sources. A primitive borrows the buffers bound to its input tags
    and writes the buffer bound to its output tag. *)
Record primitive : Type := {
  kind : primitive_kind;
  inputs : list Z;
  output : Z;
  kernel : list (memory_desc * list Q) -> memory_desc -> outcome (list Q)
}.

Fixpoint find_arg (tag : Z) (args : list (Z * memory)) : option memory :=
  match args with
  | [] => None
  | (t, m) :: rest => if decide (t = tag) then Some m else find_arg tag rest
  end.

Definition contents (st : engine) (m : memory) : list Q :=
  default [] (heap st !! handle m).

Fixpoint gather (st : engine) (tags : list Z) (args : list (Z * memory))
    : option (list (memory_desc * list Q)) :=
  match tags with
  | [] => Some []
  | t :: rest =>
      m ← find_arg t args;
      ins ← gather st rest args;
      Some ((get_desc m, contents st m) :: ins)
  end.

(** [p.execute(s, args)] *)
Definition execute (p : primitive) (args : list (Z * memory)) : prog unit :=
  fun st =>
    match gather st (inputs p) args, find_arg (output p) args with
    | Some ins, Some out =>
        match kernel p ins (get_desc out) with
        | Ok data =>
            Ok (tt, {| heap := <[handle out := data]> (heap st);
                       next_handle := next_handle st;
                       history := executed (kind p) args :: history st |})
        | Throw e => Throw e
        end
    | _, _ => Throw (dnnl_error 2)
    end.

(** [s.wait()] *)
Definition wait : prog unit :=
  fun st => Ok (tt, {| heap := heap st; next_handle := next_handle st;
                       history := waited :: history st |}).

Definition N : Z := 1.
Definition H : Z := 14.
Definition W : Z := 14.
Definition IC : Z := 128.
Definition OC : Z := 256.
Definition KH : Z := 3.
Definition KW : Z := 3.

Definition desc_of_tag (shape : list Z) (dt : data_type) (tag : format_tag)
    : outcome memory_desc :=
  match make_canonical shape tag with
  | inr l => Ok {| dims := shape; dtype := dt; layout := l |}
  | inl _ => Throw (dnnl_error 2)
  end.

(** The local variables of the tutorial once the intermediate buffers
    are decided. *)
Record locals : Type := {
  src_mem : memory;
  weights_mem : memory;
  dst_mem : memory;
  need_reorder_src : bool;
  need_reorder_weights : bool;
  need_reorder_dst : bool;
  conv_src_mem : memory;
  conv_weights_mem : memory;
  conv_dst_mem : memory;
  pool_dst_mem : memory
}.

Section Tutorial.

(** The library's choices and kernels: what the two primitive
    descriptors report, the contents of a new buffer, and what the
    reorder, convolution and pooling kernels compute. *)
Variable conv_pd : primitive_desc.
Variable pool_pd : primitive_desc.
Variable fresh_contents : memory_desc -> list Q.
Variable reorder_kernel :
  memory_desc -> memory_desc ->
  list (memory_desc * list Q) -> memory_desc -> outcome (list Q).
Variable conv_kernel pool_kernel :
  list (memory_desc * list Q) -> memory_desc -> outcome (list Q).

(** [memory(md, eng)] *)
Definition new_memory (md : memory_desc) : prog memory :=
  fun st =>
    let m := {| get_desc := md; handle := next_handle st |} in
    Ok (m, {| heap := <[next_handle st := fresh_contents md]> (heap st);
              next_handle := S (next_handle st);
              history := allocated m :: history st |}).

Definition new_memory_of_tag (shape : list Z) (dt : data_type)
    (tag : format_tag) : prog memory :=
  match desc_of_tag shape dt tag with
  | Ok md => new_memory md
  | Throw e => raise e
  end.

(** [reorder(from, to)] *)
Definition reorder (from to : memory) : primitive :=
  {| kind := reorder_k; inputs := [DNNL_ARG_FROM]; output := DNNL_ARG_TO;
     kernel := reorder_kernel (get_desc from) (get_desc to) |}.

Definition convolution_forward : primitive :=
  {| kind := convolution_k; inputs := [DNNL_ARG_SRC; DNNL_ARG_WEIGHTS];
     output := DNNL_ARG_DST; kernel := conv_kernel |}.

Definition pooling_forward : primitive :=
  {| kind := pooling_k; inputs := [DNNL_ARG_SRC]; output := DNNL_ARG_DST;
     kernel := pool_kernel |}.

(** Source, weights and destination memory objects of the user. *)
Definition create_user_memory : prog (memory * memory * memory) :=
  src ← new_memory_of_tag [N; IC; H; W] f32 nchw;
  weights ← new_memory_of_tag [OC; IC; KH; KW] f32 oihw;
  dst ← new_memory_of_tag [N; OC; H; W] f32 nchw;
  mret (src, weights, dst).

(** The three mismatch flags and the intermediate buffers. *)
Definition allocate_intermediate (src weights dst : memory) : prog locals :=
  let need_src := negb (bool_decide (src_desc conv_pd = get_desc src)) in
  let need_weights := negb (bool_decide (weights_desc conv_pd = get_desc weights)) in
  let need_dst := negb (bool_decide (dst_desc conv_pd = get_desc dst)) in
  conv_src ← (if need_dst then new_memory (src_desc conv_pd) else mret src);
  conv_weights ← (if need_weights then new_memory (weights_desc conv_pd)
                  else mret weights);
  conv_dst ← new_memory (dst_desc conv_pd);
  pool_dst ← (if need_dst then new_memory (dst_desc pool_pd) else mret dst);
  mret {| src_mem := src; weights_mem := weights; dst_mem := dst;
          need_reorder_src := need_src;
          need_reorder_weights := need_weights;
          need_reorder_dst := need_dst;
          conv_src_mem := conv_src; conv_weights_mem := conv_weights;
          conv_dst_mem := conv_dst; pool_dst_mem := pool_dst |}.

(** The reorder of the source data, as its call site binds it. *)
Definition reorder_source (l : locals) : prog unit :=
  if need_reorder_src l then
    let reorder_src := reorder (src_mem l) (conv_src_mem l) in
    execute reorder_src
      [(DNNL_ARG_FROM, src_mem l); (DNNL_ARG_TO, conv_weights_mem l)];;
    wait
  else mret tt.

Definition reorder_weights_step (l : locals) : prog unit :=
  if need_reorder_weights l then
    let reorder_weights := reorder (weights_mem l) (conv_weights_mem l) in
    execute reorder_weights
      [(DNNL_ARG_FROM, weights_mem l); (DNNL_ARG_TO, conv_weights_mem l)];;
    wait
  else mret tt.

Definition convolution_and_pooling (l : locals) : prog unit :=
  _ ← new_memory (scratchpad_desc conv_pd);
  execute convolution_forward
    [(DNNL_ARG_FROM, conv_src_mem l); (DNNL_ARG_WEIGHTS, conv_weights_mem l);
     (DNNL_ARG_DST, conv_dst_mem l)];;
  _ ← new_memory (scratchpad_desc pool_pd);
  execute pooling_forward
    [(DNNL_ARG_SRC, conv_dst_mem l); (DNNL_ARG_DST, pool_dst_mem l)];;
  wait.

Definition reorder_destination (l : locals) : prog unit :=
  if need_reorder_dst l then
    let reorder_dst := reorder (pool_dst_mem l) (dst_mem l) in
    execute reorder_dst
      [(DNNL_ARG_FROM, pool_dst_mem l); (DNNL_ARG_TO, dst_mem l)]
  else mret tt.

Definition memory_format_propagation_tutorial : prog locals :=
  '(src, weights, dst) ← create_user_memory;
  l ← allocate_intermediate src weights dst;
  reorder_source l;;
  reorder_weights_step l;;
  convolution_and_pooling l;;
  reorder_destination l;;
  mret l.

(** The run up to the decision on the intermediate buffers. *)
Definition setup : prog locals :=
  '(src, weights, dst) ← create_user_memory;
  allocate_intermediate src weights dst.

End Tutorial.

(** The user's three memory objects, as [create_user_memory] makes them
    on a new engine: plain nchw / oihw descriptors, handles 0, 1, 2. *)
Definition user_src_desc : memory_desc :=
  {| dims := [N; IC; H; W]; dtype := f32;
     layout := {| strides := [IC * H * W; H * W; W; 1] |} |}.
Definition user_weights_desc : memory_desc :=
  {| dims := [OC; IC; KH; KW]; dtype := f32;
     layout := {| strides := [IC * KH * KW; KH * KW; KW; 1] |} |}.
Definition user_dst_desc : memory_desc :=
  {| dims := [N; OC; H; W]; dtype := f32;
     layout := {| strides := [OC * H * W; H * W; W; 1] |} |}.

Definition user_src : memory := {| get_desc := user_src_desc; handle := 0 |}.
Definition user_weights : memory := {| get_desc := user_weights_desc; handle := 1 |}.
Definition user_dst : memory := {| get_desc := user_dst_desc; handle := 2 |}.

(** A primitive descriptor with another source descriptor. *)
Definition with_src_desc (pd : primitive_desc) (md : memory_desc) : primitive_desc :=
  {| src_desc := md; weights_desc := weights_desc pd;
     dst_desc := dst_desc pd; scratchpad_desc := scratchpad_desc pd |}.

(** The engine right after [create_user_memory] on a new engine. *)
Definition after_user_memory (fresh_contents : memory_desc -> list Q) : engine :=
  {| heap :=
       <[2%nat := fresh_contents user_dst_desc]>
         (<[1%nat := fresh_contents user_weights_desc]>
            (<[0%nat := fresh_contents user_src_desc]> ∅));
     next_handle := 3;
     history := [allocated user_dst; allocated user_weights; allocated user_src] |}.

End Propagation.

(** ** Concrete runs used below *)

Module Scenarios.

Import Layout.

(** A stand-in for the image values, taking both signs. *)
Definition ramp (off : Z) : Q := (off - 250) # 100.

Definition blank_image : list Q :=
  replicate (Z.to_nat GettingStarted.image_size) 0%Q.

Definition relu_value (x : Q) : Q := if Qlt_le_dec x 0 then 0%Q else x.

(** A ReLU that is right everywhere. *)
Definition relu_exact (src : list Q) : outcome (list Q) :=
  Ok (map relu_value src).

(** A ReLU that is right except at physical offset 0, where it leaves 1. *)
Definition relu_wrong_at_0 (src : list Q) : outcome (list Q) :=
  Ok (GettingStarted.write (map relu_value src) 0 1%Q).


(** A matmul that leaves every output element 0, below the zero point. *)
Definition matmul_zero (M N K : Z) (A_u8 B_s8 : list Z) (scales_f32 : list Q)
    (zpA zpC : Z) : outcome (list Z) :=
  Ok (replicate (Z.to_nat (M * N)) 0).

Definition reorder_zero (B_f32 : list Q) : outcome (list Z) :=
  Ok (map (fun _ => 0) B_f32).

Definition no_draws : Int8Matmul.draws :=
  {| Int8Matmul.B_f32 := [];
     Int8Matmul.A_u8_of := fun _ => [];
     Int8Matmul.scales_f32_of := fun _ => [] |}.

(** Choices a library can report for the convolution and the pooling:
    channel-last activations and weights, as in the run logged at the
    end of the example. *)
Definition nhwc_src_desc : memory_desc :=
  {| dims := [1; 128; 14; 14]; dtype := f32;
     layout := {| strides := [14 * 14 * 128; 1; 14 * 128; 128] |} |}.
Definition nhwc_dst_desc : memory_desc :=
  {| dims := [1; 256; 14; 14]; dtype := f32;
     layout := {| strides := [14 * 14 * 256; 1; 14 * 256; 256] |} |}.
Definition ohwi_weights_desc : memory_desc :=
  {| dims := [256; 128; 3; 3]; dtype := f32;
     layout := {| strides := [3 * 3 * 128; 1; 3 * 128; 128] |} |}.
Definition no_scratchpad : memory_desc :=
  {| dims := [0]; dtype := u8; layout := {| strides := [1] |} |}.

Definition conv_pd_nhwc : Propagation.primitive_desc :=
  {| Propagation.src_desc := nhwc_src_desc;
     Propagation.weights_desc := ohwi_weights_desc;
     Propagation.dst_desc := nhwc_dst_desc;
     Propagation.scratchpad_desc := no_scratchpad |}.

Definition pool_pd_nhwc : Propagation.primitive_desc :=
  {| Propagation.src_desc := nhwc_dst_desc;
     Propagation.weights_desc := no_scratchpad;
     Propagation.dst_desc := nhwc_dst_desc;
     Propagation.scratchpad_desc := no_scratchpad |}.

(** A convolution that takes the source as the user holds it, plain
    nchw, and produces a channel-last destination. *)
Definition conv_pd_src_kept : Propagation.primitive_desc :=
  Propagation.with_src_desc conv_pd_nhwc Propagation.user_src_desc.

Definition zero_contents (md : memory_desc) : list Q := [].

Definition copy_kernel (from to : memory_desc)
    (ins : list (memory_desc * list Q)) (out : memory_desc) : outcome (list Q) :=
  Ok (match ins with
      | (_, data) :: _ => data
      | [] => []
      end).

End Scenarios.

(** ** The offsets the loops of the getting-started example go through *)

Module Visits.

(** The offsets computed by the four nested loops, in the order of the
    iterations. *)
Definition visited_offsets : list Z :=
  n ← seqZ 0 GettingStarted.N;
  h ← seqZ 0 GettingStarted.H;
  w ← seqZ 0 GettingStarted.W;
  c ← seqZ 0 GettingStarted.C;
  [GettingStarted.offset n h w c].

(** The writes of the filling loops, one after the other. *)
Definition writes (wave : Z -> Q) (offs : list Z) (image : list Q) : list Q :=
  foldl (fun img off => GettingStarted.write img off (wave off)) image offs.

End Visits.

(** ** Kernels that return *)

Module Returning.

Import Layout.

(** A reorder kernel that never throws and computes [f]. *)
Definition reorder_of
    (f : memory_desc -> memory_desc -> list (memory_desc * list Q) ->
         memory_desc -> list Q)
    (from to : memory_desc) (ins : list (memory_desc * list Q))
    (out : memory_desc) : outcome (list Q) :=
  Ok (f from to ins out).

(** A convolution or pooling kernel that never throws and computes [f]. *)
Definition kernel_of
    (f : list (memory_desc * list Q) -> memory_desc -> list Q)
    (ins : list (memory_desc * list Q)) (out : memory_desc) : outcome (list Q) :=
  Ok (f ins out).

End Returning.

(** ** Library behaviours with a failure *)

Module Faults.

Import Layout.

(** A matmul that returns zeros for M = 1 and throws for any other M. *)
Definition matmul_throws_after_first (M N K : Z) (A_u8 B_s8 : list Z)
    (scales_f32 : list Q) (zpA zpC : Z) : outcome (list Z) :=
  if decide (M = 1) then Ok (replicate (Z.to_nat (M * N)) 0)
  else Throw (dnnl_error 5).

(** A reorder kernel that always throws. *)
Definition reorder_throws (from to : memory_desc)
    (ins : list (memory_desc * list Q)) (out : memory_desc) : outcome (list Q) :=
  Throw (dnnl_error 5).

End Faults.

(** * Properties *)

(** ** [int] arithmetic without overflow *)

Lemma wrap_small (z : Z) : Int.in_range z -> Int.wrap z = z.
Proof.
  unfold Int.in_range, Int.wrap. intros Hz.
  rewrite Z.mod_small; lia.
Qed.

Lemma wrap_in_range (z : Z) : Int.in_range (Int.wrap z).
Proof.
  unfold Int.in_range, Int.wrap.
  pose proof (Z.mod_pos_bound (z + 2 ^ 31) (2 ^ 32) ltac:(lia)). lia.
Qed.

Lemma strides_values :
  GettingStarted.stride_N = 507 /\ GettingStarted.stride_H = 39 /\
  GettingStarted.stride_W = 3 /\ GettingStarted.stride_C = 1 /\
  GettingStarted.image_size = 507.
Proof. repeat split; reflexivity. Qed.

Ltac unwrap :=
  repeat match goal with
    | |- context [Int.wrap ?z] =>
        rewrite (wrap_small z) by (unfold Int.in_range; lia)
    end.

(** Away from overflow the lambda computes
    [n * 507 + h * 39 + w * 3 + 1]; the index [c] does not occur. *)
Lemma offset_linear (n h w c : Z) :
  - 2 ^ 20 <= n <= 2 ^ 20 -> - 2 ^ 20 <= h <= 2 ^ 20 -> - 2 ^ 20 <= w <= 2 ^ 20 ->
  GettingStarted.offset n h w c = n * 507 + h * 39 + w * 3 + 1.
Proof.
  intros Hn Hh Hw. unfold GettingStarted.offset.
  destruct strides_values as (-> & -> & -> & -> & _).
  unfold Int.add, Int.mul. unwrap. reflexivity.
Qed.

Lemma offset_valid (n h w c : Z) :
  GettingStarted.valid_index n h w c ->
  GettingStarted.offset n h w c = h * 39 + w * 3 + 1.
Proof.
  unfold GettingStarted.valid_index, GettingStarted.N, GettingStarted.H,
    GettingStarted.W, GettingStarted.C.
  intros (Hn & Hh & Hw & Hc). rewrite offset_linear by lia. lia.
Qed.

(** Every offset the loops compute lies inside the image buffer. *)
Lemma offset_in_buffer (n h w c : Z) :
  GettingStarted.valid_index n h w c ->
  0 <= GettingStarted.offset n h w c < GettingStarted.image_size.
Proof.
  intros Hv. rewrite (offset_valid _ _ _ _ Hv).
  destruct strides_values as (_ & _ & _ & _ & ->).
  unfold GettingStarted.valid_index, GettingStarted.N, GettingStarted.H,
    GettingStarted.W, GettingStarted.C in Hv. lia.
Qed.

(** The sum of products the spec asks for, on the example's strides. *)
Lemma dot_explicit_strides (n c h w : Z) :
  Layout.dot [n; c; h; w] GettingStarted.explicit_strides
  = n * 507 + h * 39 + w * 3 + c.
Proof.
  unfold GettingStarted.explicit_strides.
  destruct strides_values as (-> & -> & -> & -> & _).
  unfold Layout.dot. simpl. lia.
Qed.

(** On a valid index tuple the lambda and the sum of products differ by
    [1 - c]: they agree exactly on channel 1. *)
Lemma offset_vs_dot (n h w c : Z) :
  GettingStarted.valid_index n h w c ->
  GettingStarted.offset n h w c
  = Layout.dot [n; c; h; w] GettingStarted.explicit_strides + (1 - c).
Proof.
  intros Hv. rewrite dot_explicit_strides, (offset_valid _ _ _ _ Hv).
  unfold GettingStarted.valid_index, GettingStarted.N in Hv. lia.
Qed.

(** C1: the spec's offset is the sum of [indices[i] * strides[i]], for the
    example [n*(H*W*C) + h*(W*C) + w*C + c]; the tutorial's lambda adds
    [stride_C] instead of [c * stride_C]. At (n,h,w,c) = (0,0,0,0) it
    returns 1 where the sum is 0, and at (0,0,0,2) it returns 1 where the
    sum is 2. *)
Theorem offset_drops_channel_index :
  GettingStarted.offset 0 0 0 0 = 1 /\
  Layout.offset {| Layout.strides := GettingStarted.explicit_strides |}
    GettingStarted.logical_dims [0; 0; 0; 0] = inr 0 /\
  GettingStarted.offset 0 0 0 2 = 1 /\
  Layout.offset {| Layout.strides := GettingStarted.explicit_strides |}
    GettingStarted.logical_dims [0; 2; 0; 0] = inr 2.
Proof. repeat split; reflexivity. Qed.

(** ** Injectivity of a packed channel-last layout *)

Lemma radix_unique (a b a' b' m : Z) :
  0 <= b < m -> 0 <= b' < m -> a * m + b = a' * m + b' -> a = a' /\ b = b'.
Proof. intros Hb Hb' Heq. assert (a = a') by nia. subst. lia. Qed.

Lemma make_canonical_nhwc (n c h w : Z) :
  Layout.make_canonical [n; c; h; w] Layout.nhwc
  = inr {| Layout.strides := [1 * c * w * h; 1; 1 * c * w; 1 * c] |}.
Proof. reflexivity. Qed.

Lemma make_canonical_nchw (n c h w : Z) :
  Layout.make_canonical [n; c; h; w] Layout.nchw
  = inr {| Layout.strides := [1 * w * h * c; 1 * w * h; 1 * w; 1] |}.
Proof. reflexivity. Qed.

Lemma indices_ok_4 (n c h w i j k l : Z) :
  Layout.indices_ok [n; c; h; w] [i; j; k; l] = true ->
  0 <= i < n /\ 0 <= j < c /\ 0 <= k < h /\ 0 <= l < w.
Proof.
  unfold Layout.indices_ok, Layout.index_ok. simpl.
  rewrite !andb_true_iff, !Z.leb_le, !Z.ltb_lt. tauto.
Qed.

Lemma indices_ok_length (shape indices : list Z) :
  Layout.indices_ok shape indices = true -> length indices = length shape.
Proof.
  unfold Layout.indices_ok. rewrite andb_true_iff, bool_decide_eq_true. tauto.
Qed.

(** The sum of products under the channel-last strides of any shape is
    injective over the valid index tuples of that shape: a packed layout
    sends distinct logical positions to distinct offsets. *)
Lemma nhwc_offset_injective (n c h w : Z) (l : Layout.Layout) (idx idx' : list Z) :
  Layout.make_canonical [n; c; h; w] Layout.nhwc = inr l ->
  Layout.indices_ok [n; c; h; w] idx = true ->
  Layout.indices_ok [n; c; h; w] idx' = true ->
  Layout.dot idx (Layout.strides l) = Layout.dot idx' (Layout.strides l) ->
  idx = idx'.
Proof.
  rewrite make_canonical_nhwc. intros [= <-] Hok Hok'.
  pose proof (indices_ok_length _ _ Hok) as Hlen.
  pose proof (indices_ok_length _ _ Hok') as Hlen'.
  destruct idx as [|i [|j [|k [|m [|]]]]]; try discriminate Hlen.
  destruct idx' as [|i' [|j' [|k' [|m' [|]]]]]; try discriminate Hlen'.
  apply indices_ok_4 in Hok as (Hi & Hj & Hk & Hm).
  apply indices_ok_4 in Hok' as (Hi' & Hj' & Hk' & Hm').
  unfold Layout.dot. simpl. intros Heq.
  assert (Hc : ((i * h + k) * w + m) * c + j = ((i' * h + k') * w + m') * c + j')
    by lia.
  apply radix_unique in Hc as [Hc ->]; [| lia | lia].
  apply radix_unique in Hc as [Hc ->]; [| lia | lia].
  apply radix_unique in Hc as [-> ->]; [| lia | lia].
  reflexivity.
Qed.

(** C3: a packed layout must send distinct valid index tuples to distinct
    offsets; the tutorial's lambda sends the distinct valid tuples
    (0,0,0,0) and (0,0,0,1) to the same offset 1. *)
Theorem offset_collides_on_channels :
  GettingStarted.valid_index 0 0 0 0 /\
  GettingStarted.valid_index 0 0 0 1 /\
  (0, 0, 0, 0) <> (0, 0, 0, 1) /\
  GettingStarted.offset 0 0 0 0 = GettingStarted.offset 0 0 0 1.
Proof.
  unfold GettingStarted.valid_index, GettingStarted.N, GettingStarted.H,
    GettingStarted.W, GettingStarted.C.
  repeat split; try lia; discriminate.
Qed.

(** ** No range check in the tutorial's lambda *)

(** C7, as stated, fails: with h equal to the extent H = 13 the lambda
    returns the offset 508, which is past the end of the 507-element
    image, and no [IndexOutOfRange]. *)
Lemma offset_accepts_index_at_extent :
  ~ GettingStarted.valid_index 0 13 0 0 /\
  GettingStarted.offset_call 0 13 0 0 = inr 508 /\
  GettingStarted.offset_call 0 13 0 0 <> inl Layout.IndexOutOfRange /\
  GettingStarted.image_size <= 508.
Proof.
  unfold GettingStarted.valid_index, GettingStarted.H.
  repeat split; try discriminate; try (vm_compute; discriminate). lia.
Qed.

(** C7, amended: the lambda checks no range. On every index tuple, valid
    or not, it returns an [int] and never fails with [IndexOutOfRange]. *)
Theorem offset_never_fails (n h w c : Z) :
  exists v : Z,
    GettingStarted.offset_call n h w c = inr v /\ Int.in_range v /\
    GettingStarted.offset_call n h w c <> inl Layout.IndexOutOfRange.
Proof.
  exists (GettingStarted.offset n h w c). repeat split.
  - apply wrap_in_range.
  - apply wrap_in_range.
  - discriminate.
Qed.

(** ** Canonical name against explicit strides *)

Lemma strides_from_fastest_length (shape : list Z) (order : list nat)
    (acc : Z) (out : list Z) :
  length (Layout.strides_from_fastest shape order acc out) = length out.
Proof.
  revert acc out. induction order as [|d order IH]; intros acc out; simpl.
  - reflexivity.
  - rewrite IH. apply length_insert.
Qed.

Lemma equals_refl (l : Layout.Layout) : Layout.equals l l = true.
Proof. unfold Layout.equals, Layout.Zlist_eqb. by apply bool_decide_eq_true. Qed.

(** Whatever the shape and the canonical name, wrapping the strides the
    name resolves to gives an equal layout. *)
Lemma canonical_equals_its_strides (shape : list Z) (name : Layout.format_tag)
    (l : Layout.Layout) :
  Layout.make_canonical shape name = inr l ->
  Layout.make_strided shape (Layout.strides l) = inr l /\
  Layout.equals l l = true.
Proof.
  unfold Layout.make_canonical, Layout.make_strided.
  destruct (Layout.dim_order (length shape) name) as [order|]; [| discriminate].
  intros [= <-]. simpl.
  rewrite strides_from_fastest_length, length_replicate.
  rewrite decide_True by reflexivity. split; [reflexivity |].
  apply equals_refl.
Qed.

Lemma descriptor_check_passes : GettingStarted.descriptor_check = Ok tt.
Proof. reflexivity. Qed.

(** C2: for every shape {N, C, H, W} the channel-last name and the stride
    vector {H*W*C, 1, W*C, C} construct equal layouts, and so do the
    name nchw and {C*H*W, H*W, W, 1}; on the example's shape the two
    descriptors are the ones the tutorial builds and its consistency
    check does not throw. *)
Theorem canonical_and_strided_agree :
  (forall n c h w : Z,
    exists a b : Layout.Layout,
      Layout.make_canonical [n; c; h; w] Layout.nhwc = inr a /\
      Layout.make_strided [n; c; h; w] [h * w * c; 1; w * c; c] = inr b /\
      Layout.equals a b = true) /\
  (forall n c h w : Z,
    exists a b : Layout.Layout,
      Layout.make_canonical [n; c; h; w] Layout.nchw = inr a /\
      Layout.make_strided [n; c; h; w] [c * h * w; h * w; w; 1] = inr b /\
      Layout.equals a b = true) /\
  GettingStarted.logical_dims = [1; 3; 13; 13] /\
  GettingStarted.explicit_strides = [13 * 13 * 3; 1; 13 * 3; 3] /\
  GettingStarted.descriptor_check = Ok tt.
Proof.
  split; [| split; [| repeat split]].
  - intros n c h w. eexists _, _.
    split; [apply make_canonical_nhwc |]. split; [reflexivity |].
    unfold Layout.equals, Layout.Zlist_eqb. simpl.
    apply bool_decide_eq_true.
    repeat (apply (f_equal2 cons); [ring |]). reflexivity.
  - intros n c h w. eexists _, _.
    split; [apply make_canonical_nchw |]. split; [reflexivity |].
    unfold Layout.equals, Layout.Zlist_eqb. simpl.
    apply bool_decide_eq_true.
    repeat (apply (f_equal2 cons); [ring |]). reflexivity.
Qed.

(** ** The result check of the getting-started example *)

Lemma for_range_ok (count : nat) (lo : Z) (body : Z -> outcome unit) :
  for_range count lo body = Ok tt <->
  (forall i : Z, lo <= i < lo + Z.of_nat count -> body i = Ok tt).
Proof.
  revert lo. induction count as [|count IH]; intros lo; simpl.
  - split; [intros _ i Hi; lia | reflexivity].
  - split.
    + intros Hrun i Hi. destruct (body lo) as [[]|e] eqn:Hlo; [| discriminate Hrun].
      simpl in Hrun. destruct (decide (i = lo)) as [-> | Hne]; [exact Hlo |].
      apply IH with (lo := lo + 1); [exact Hrun | lia].
    + intros Hall. rewrite (Hall lo) by lia. simpl.
      apply IH. intros i Hi. apply Hall. lia.
Qed.

Lemma check_result_ok (image relu_image : list Q) :
  GettingStarted.check_result image relu_image = Ok tt <->
  (forall n h w c : Z, GettingStarted.valid_index n h w c ->
     GettingStarted.check_element image relu_image n h w c = Ok tt).
Proof.
  unfold GettingStarted.check_result, GettingStarted.valid_index.
  rewrite for_range_ok. split.
  - intros Hall n h w c (Hn & Hh & Hw & Hc).
    specialize (Hall n ltac:(lia)). rewrite for_range_ok in Hall.
    specialize (Hall h ltac:(lia)). rewrite for_range_ok in Hall.
    specialize (Hall w ltac:(lia)). rewrite for_range_ok in Hall.
    apply Hall. lia.
  - intros Hall n Hn. apply for_range_ok. intros h Hh.
    apply for_range_ok. intros w Hw. apply for_range_ok. intros c Hc.
    apply Hall. lia.
Qed.

(** The check passes as soon as the elements at the offsets
    [h * 39 + w * 3 + 1] are right: the other two thirds of the buffer are
    never read. *)
Lemma check_reads_one_channel (image relu_image : list Q) :
  (forall h w : Z, 0 <= h < 13 -> 0 <= w < 13 ->
     Qeq_bool (GettingStarted.read relu_image (h * 39 + w * 3 + 1))
              (GettingStarted.expected
                 (GettingStarted.read image (h * 39 + w * 3 + 1))) = true) ->
  GettingStarted.check_result image relu_image = Ok tt.
Proof.
  intros Hall. apply check_result_ok. intros n h w c Hv.
  unfold GettingStarted.check_element. rewrite (offset_valid _ _ _ _ Hv).
  unfold GettingStarted.valid_index, GettingStarted.H, GettingStarted.W in Hv.
  rewrite Hall by lia. reflexivity.
Qed.

Lemma for_range_outcomes (count : nat) (lo : Z) (body : Z -> outcome unit) (e : exn) :
  (forall i : Z, body i = Ok tt \/ body i = Throw e) ->
  for_range count lo body = Ok tt \/ for_range count lo body = Throw e.
Proof.
  intros Hbody. revert lo. induction count as [|count IH]; intros lo; simpl.
  - by left.
  - destruct (Hbody lo) as [-> | ->]; simpl; [apply IH | by right].
Qed.

(** The check either passes or throws its [std::logic_error]. *)
Lemma check_result_outcomes (image relu_image : list Q) :
  GettingStarted.check_result image relu_image = Ok tt \/
  GettingStarted.check_result image relu_image
  = Throw GettingStarted.accuracy_failed.
Proof.
  unfold GettingStarted.check_result.
  repeat (apply for_range_outcomes; intros ?).
  unfold GettingStarted.check_element.
  destruct (negb _); [by right | by left].
Qed.

(** A wrong element at one of the offsets the loops do read makes the
    check throw. *)
Lemma check_detects_read_offsets (image relu_image : list Q) (h w : Z) :
  0 <= h < 13 -> 0 <= w < 13 ->
  Qeq_bool (GettingStarted.read relu_image (h * 39 + w * 3 + 1))
           (GettingStarted.expected
              (GettingStarted.read image (h * 39 + w * 3 + 1))) = false ->
  GettingStarted.check_result image relu_image
  = Throw GettingStarted.accuracy_failed.
Proof.
  intros Hh Hw Hwrong.
  destruct (check_result_outcomes image relu_image) as [Hpass | Hthrow];
    [| exact Hthrow].
  assert (Hv : GettingStarted.valid_index 0 h w 0).
  { unfold GettingStarted.valid_index, GettingStarted.N, GettingStarted.H,
      GettingStarted.W, GettingStarted.C. lia. }
  rewrite check_result_ok in Hpass. specialize (Hpass 0 h w 0 Hv).
  unfold GettingStarted.check_element in Hpass.
  rewrite (offset_valid _ _ _ _ Hv), Hwrong in Hpass. discriminate Hpass.
Qed.

(** C5: every element must equal max(0, source) and any discrepancy must
    stop the example. With a result that is wrong at physical offset 0
    (1 where max(0, 0) = 0 is expected) the check finds nothing and the
    example ends with exit code 0: the loops reach the buffer through the
    lambda, which never yields offset 0. *)
Theorem check_misses_discrepancy :
  let image := GettingStarted.init_image Scenarios.ramp Scenarios.blank_image in
  exists relu_image : list Q,
    Scenarios.relu_wrong_at_0 image = Ok relu_image /\
    Qeq_bool (GettingStarted.read relu_image 0)
             (GettingStarted.expected (GettingStarted.read image 0)) = false /\
    GettingStarted.check_result image relu_image = Ok tt /\
    GettingStarted.main Scenarios.ramp Scenarios.relu_wrong_at_0 = Exited 0.
Proof.
  intros image. eexists. split; [reflexivity |].
  split; [vm_compute; reflexivity |].
  split; vm_compute; reflexivity.
Qed.

(** ** The INT8 matmul example *)

Lemma check_from_decide (count : nat) (lo : Z) (C_u8 : list Z) :
  Int8Matmul.check_from count lo C_u8
  = if decide (Forall (fun i => Int8Matmul.zp_C <= Int8Matmul.readZ C_u8 i)
                      (seqZ lo (Z.of_nat count)))
    then 0 else 1.
Proof.
  revert lo. induction count as [|count IH]; intros lo.
  - cbn [Int8Matmul.check_from]. rewrite decide_True; [reflexivity | constructor].
  - cbn [Int8Matmul.check_from].
    rewrite seqZ_cons by lia.
    replace (Z.pred (Z.of_nat (S count))) with (Z.of_nat count) by lia.
    destruct (Z.ltb_spec (Int8Matmul.readZ C_u8 lo) Int8Matmul.zp_C) as [Hlt | Hge].
    + rewrite decide_False; [reflexivity |].
      intros Hall. apply Forall_cons in Hall as [Hhd _]. lia.
    + rewrite IH. replace (Z.succ lo) with (lo + 1) by lia.
      destruct (decide (Forall _ (seqZ (lo + 1) _))) as [Hall | Hnot].
      * rewrite decide_True; [reflexivity | by constructor].
      * rewrite decide_False; [reflexivity |].
        intros Hall. apply Forall_cons in Hall as [_ Htl]. by apply Hnot.
Qed.

Lemma check_from_bit (count : nat) (lo : Z) (C_u8 : list Z) :
  Int8Matmul.check_from count lo C_u8 = 0 \/
  Int8Matmul.check_from count lo C_u8 = 1.
Proof. rewrite check_from_decide. case_decide; auto. Qed.

Lemma check_from_detects (count : nat) (lo i : Z) (C_u8 : list Z) :
  lo <= i < lo + Z.of_nat count ->
  Int8Matmul.readZ C_u8 i < Int8Matmul.zp_C ->
  Int8Matmul.check_from count lo C_u8 = 1.
Proof.
  intros Hi Hlt. rewrite check_from_decide.
  rewrite decide_False; [reflexivity |].
  intros Hall. rewrite Forall_forall in Hall.
  specialize (Hall i). rewrite elem_of_seqZ in Hall. specialize (Hall ltac:(lia)). lia.
Qed.


Lemma infer_unfold
    (exec : Z -> Z -> Z -> list Z -> list Z -> list Q -> Z -> Z -> outcome (list Z))
    (M N K : Z) (B_s8 A_u8 : list Z) (scales_f32 : list Q) :
  0 <= M * K -> 0 <= M * N -> 0 <= N ->
  Int8Matmul.infer exec M N K B_s8 A_u8 scales_f32
  = (C_u8 ← exec M N K A_u8 B_s8 scales_f32 Int8Matmul.zp_A Int8Matmul.zp_C;
     Ok (Int8Matmul.check_from (Z.to_nat (M * N)) 0 C_u8)).
Proof.
  intros HA HC HN.
  unfold Int8Matmul.infer, Int8Matmul.vector_alloc, Int8Matmul.number_of_runs.
  rewrite !(proj2 (Z.ltb_ge _ _)) by lia.
  cbn [mbind outcome_bind Int8Matmul.run_loop].
  destruct (exec M N K A_u8 B_s8 scales_f32 _ _); reflexivity.
Qed.














Lemma infer_all_two
    (exec : Z -> Z -> Z -> list Z -> list Z -> list Q -> Z -> Z -> outcome (list Z))
    (M1 M2 N K : Z) (B_s8 : list Z) (d : Int8Matmul.draws) (r1 r2 : Z) :
  Int8Matmul.infer exec M1 N K B_s8 (Int8Matmul.A_u8_of d M1)
    (Int8Matmul.scales_f32_of d M1) = Ok r1 ->
  Int8Matmul.infer exec M2 N K B_s8 (Int8Matmul.A_u8_of d M2)
    (Int8Matmul.scales_f32_of d M2) = Ok r2 ->
  Int8Matmul.infer_all exec [M1; M2] N K B_s8 d 0 = Ok (Z.lor (Z.lor 0 r1) r2).
Proof.
  intros H1 H2. cbn [Int8Matmul.infer_all]. rewrite H1.
  cbn [mbind outcome_bind]. rewrite H2. reflexivity.
Qed.


Lemma lor_bits_nonzero (r1 r2 : Z) :
  (r1 = 0 \/ r1 = 1) -> (r2 = 0 \/ r2 = 1) -> (r1 = 1 \/ r2 = 1) ->
  Z.lor (Z.lor 0 r1) r2 <> 0.
Proof. intros [-> | ->] [-> | ->] [? | ?]; try lia; vm_compute; lia. Qed.









(** ** What a detected mismatch does to the process *)




(** ** Memory format propagation: which buffers are new, what is written *)

Lemma create_user_memory_run (fresh_contents : Layout.memory_desc -> list Q) :
  Propagation.create_user_memory fresh_contents Propagation.empty_engine
  = Ok ((Propagation.user_src, Propagation.user_weights, Propagation.user_dst),
        Propagation.after_user_memory fresh_contents).
Proof. reflexivity. Qed.

Lemma setup_unfold (conv_pd pool_pd : Propagation.primitive_desc)
    (fresh_contents : Layout.memory_desc -> list Q) :
  Propagation.setup conv_pd pool_pd fresh_contents Propagation.empty_engine
  = Propagation.allocate_intermediate conv_pd pool_pd fresh_contents
      Propagation.user_src Propagation.user_weights Propagation.user_dst
      (Propagation.after_user_memory fresh_contents).
Proof. reflexivity. Qed.

(** What [setup] decides, on a new engine and for any choice of the
    library: it always returns, the three flags are the three descriptor
    comparisons, and each intermediate buffer is either a new one or the
    user's. *)
Lemma setup_decides (conv_pd pool_pd : Propagation.primitive_desc)
    (fresh_contents : Layout.memory_desc -> list Q) :
  exists (l : Propagation.locals) (st : Propagation.engine),
    Propagation.setup conv_pd pool_pd fresh_contents Propagation.empty_engine
    = Ok (l, st) /\
    Propagation.src_mem l = Propagation.user_src /\
    Propagation.weights_mem l = Propagation.user_weights /\
    Propagation.dst_mem l = Propagation.user_dst /\
    Propagation.need_reorder_src l
    = negb (bool_decide (Propagation.src_desc conv_pd = Propagation.user_src_desc)) /\
    Propagation.need_reorder_weights l
    = negb (bool_decide
              (Propagation.weights_desc conv_pd = Propagation.user_weights_desc)) /\
    Propagation.need_reorder_dst l
    = negb (bool_decide (Propagation.dst_desc conv_pd = Propagation.user_dst_desc)) /\
    Propagation.conv_src_mem l
    = (if Propagation.need_reorder_dst l
       then {| Propagation.get_desc := Propagation.src_desc conv_pd;
               Propagation.handle := 3 |}
       else Propagation.user_src) /\
    Propagation.conv_weights_mem l
    = (if Propagation.need_reorder_weights l
       then {| Propagation.get_desc := Propagation.weights_desc conv_pd;
               Propagation.handle :=
                 if Propagation.need_reorder_dst l then 4 else 3 |}
       else Propagation.user_weights) /\
    (if Propagation.need_reorder_dst l
     then Propagation.get_desc (Propagation.pool_dst_mem l)
          = Propagation.dst_desc pool_pd /\
          (5 <= Propagation.handle (Propagation.pool_dst_mem l))%nat
     else Propagation.pool_dst_mem l = Propagation.user_dst) /\
    Propagation.heap st !! Propagation.handle (Propagation.conv_src_mem l)
    = Some (fresh_contents (Propagation.get_desc (Propagation.conv_src_mem l))) /\
    (if Propagation.need_reorder_dst l
     then In (Propagation.allocated (Propagation.conv_src_mem l))
             (Propagation.history st)
     else True).
Proof.
  rewrite setup_unfold. unfold Propagation.allocate_intermediate.
  change (Propagation.get_desc Propagation.user_src) with Propagation.user_src_desc.
  change (Propagation.get_desc Propagation.user_weights)
    with Propagation.user_weights_desc.
  change (Propagation.get_desc Propagation.user_dst) with Propagation.user_dst_desc.
  destruct (bool_decide (Propagation.dst_desc conv_pd = Propagation.user_dst_desc));
    destruct (bool_decide
                (Propagation.weights_desc conv_pd = Propagation.user_weights_desc));
    eexists _, _; (split; [reflexivity |]);
    repeat split; try reflexivity; cbn; try lia; tauto.
Qed.

(** C10: on a new engine and for every choice of the library, the
    convolution source buffer is a new buffer with the descriptor
    [conv_pd.src_desc()] exactly when [need_reorder_dst] is set, and is
    the user's [src_mem] otherwise; replacing the source descriptor the
    library reports, which is all [need_reorder_src] depends on, changes
    neither the flag nor the buffer chosen. *)
Theorem conv_src_buffer_follows_destination_flag
    (conv_pd pool_pd : Propagation.primitive_desc)
    (fresh_contents : Layout.memory_desc -> list Q) :
  exists (l : Propagation.locals) (st : Propagation.engine),
    Propagation.setup conv_pd pool_pd fresh_contents Propagation.empty_engine
    = Ok (l, st) /\
    Propagation.need_reorder_dst l
    = negb (bool_decide (Propagation.dst_desc conv_pd
                         = Propagation.get_desc (Propagation.dst_mem l))) /\
    Propagation.need_reorder_src l
    = negb (bool_decide (Propagation.src_desc conv_pd
                         = Propagation.get_desc (Propagation.src_mem l))) /\
    Propagation.handle (Propagation.src_mem l) = 0%nat /\
    Propagation.conv_src_mem l
    = (if Propagation.need_reorder_dst l
       then {| Propagation.get_desc := Propagation.src_desc conv_pd;
               Propagation.handle := 3 |}
       else Propagation.src_mem l) /\
    Propagation.heap (Propagation.after_user_memory fresh_contents) !! 3%nat = None /\
    (if Propagation.need_reorder_dst l
     then Propagation.heap st !! 3%nat
          = Some (fresh_contents (Propagation.src_desc conv_pd))
     else True) /\
    (forall md : Layout.memory_desc,
      exists (l' : Propagation.locals) (st' : Propagation.engine),
        Propagation.setup (Propagation.with_src_desc conv_pd md) pool_pd
          fresh_contents Propagation.empty_engine = Ok (l', st') /\
        Propagation.need_reorder_dst l' = Propagation.need_reorder_dst l /\
        Propagation.handle (Propagation.conv_src_mem l')
        = Propagation.handle (Propagation.conv_src_mem l)).
Proof.
  destruct (setup_decides conv_pd pool_pd fresh_contents)
    as (l & st & Hrun & Hsrc & Hweights & Hdst & Hns & Hnw & Hnd & Hcs & Hcw
        & Hpool & Hheap & Hhist).
  exists l, st. split; [exact Hrun |].
  rewrite Hsrc, Hdst. repeat split; try assumption; try reflexivity.
  - rewrite Hcs in Hheap. destruct (Propagation.need_reorder_dst l); [| exact I].
    exact Hheap.
  - intros md.
    destruct (setup_decides (Propagation.with_src_desc conv_pd md) pool_pd
                fresh_contents)
      as (l' & st' & Hrun' & _ & _ & _ & _ & _ & Hnd' & Hcs' & _).
    exists l', st'. split; [exact Hrun' |].
    assert (Hflag : Propagation.need_reorder_dst l' = Propagation.need_reorder_dst l)
      by (rewrite Hnd', Hnd; reflexivity).
    split; [exact Hflag |].
    rewrite Hcs', Hcs, Hflag.
    destruct (Propagation.need_reorder_dst l); reflexivity.
Qed.

(** The weights and destination buffers do pass through: with equal
    descriptors no new buffer stands in for the user's. *)
Lemma weights_and_destination_pass_through
    (conv_pd pool_pd : Propagation.primitive_desc)
    (fresh_contents : Layout.memory_desc -> list Q)
    (l : Propagation.locals) (st : Propagation.engine) :
  Propagation.setup conv_pd pool_pd fresh_contents Propagation.empty_engine
  = Ok (l, st) ->
  (Propagation.weights_desc conv_pd
   = Propagation.get_desc (Propagation.weights_mem l) ->
   Propagation.conv_weights_mem l = Propagation.weights_mem l) /\
  (Propagation.dst_desc conv_pd = Propagation.get_desc (Propagation.dst_mem l) ->
   Propagation.pool_dst_mem l = Propagation.dst_mem l).
Proof.
  destruct (setup_decides conv_pd pool_pd fresh_contents)
    as (l0 & st0 & Hrun & Hsrc & Hweights & Hdst & Hns & Hnw & Hnd & Hcs & Hcw
        & Hpool & Hheap & Hhist).
  rewrite Hrun. intros [= <- <-]. rewrite Hweights, Hdst. split; intros Heq.
  - rewrite Hcw, Hnw. by rewrite bool_decide_eq_true_2.
  - rewrite Hnd in Hpool. by rewrite bool_decide_eq_true_2 in Hpool.
Qed.

(** C4: with equal descriptors the existing buffer must be passed through
    with no new allocation. When the convolution takes the source as the
    user holds it but wants another destination layout, the source flag
    is clear and [conv_src_mem] is nevertheless a new buffer, handle 3,
    not the user's [src_mem]: the allocation is keyed on
    [need_reorder_dst]. *)
Theorem equal_source_descriptor_still_allocates :
  exists (l : Propagation.locals) (st : Propagation.engine),
    Propagation.setup Scenarios.conv_pd_src_kept Scenarios.pool_pd_nhwc
      Scenarios.zero_contents Propagation.empty_engine = Ok (l, st) /\
    Propagation.src_desc Scenarios.conv_pd_src_kept
    = Propagation.get_desc (Propagation.src_mem l) /\
    Propagation.need_reorder_src l = false /\
    Propagation.need_reorder_dst l = true /\
    Propagation.conv_src_mem l <> Propagation.src_mem l /\
    Propagation.handle (Propagation.src_mem l) = 0%nat /\
    Propagation.handle (Propagation.conv_src_mem l) = 3%nat /\
    In (Propagation.allocated (Propagation.conv_src_mem l)) (Propagation.history st).
Proof.
  destruct (setup_decides Scenarios.conv_pd_src_kept Scenarios.pool_pd_nhwc
              Scenarios.zero_contents)
    as (l & st & Hrun & Hsrc & Hweights & Hdst & Hns & Hnw & Hnd & Hcs & Hcw
        & Hpool & Hheap & Hhist).
  assert (Hclear : Propagation.need_reorder_src l = false)
    by (rewrite Hns; vm_compute; reflexivity).
  assert (Hset : Propagation.need_reorder_dst l = true)
    by (rewrite Hnd; vm_compute; reflexivity).
  rewrite Hset in Hcs, Hhist.
  exists l, st. split; [exact Hrun |].
  rewrite Hsrc, Hcs. repeat split; try assumption; try reflexivity.
  - discriminate.
  - rewrite <- Hcs. exact Hhist.
Qed.

(** ** The source reorder call site *)

Lemma reorder_source_run
    (reorder_kernel :
       Layout.memory_desc -> Layout.memory_desc ->
       list (Layout.memory_desc * list Q) -> Layout.memory_desc -> outcome (list Q))
    (l : Propagation.locals) (st : Propagation.engine) :
  Propagation.need_reorder_src l = true ->
  Propagation.reorder_source reorder_kernel l st
  = match reorder_kernel
            (Propagation.get_desc (Propagation.src_mem l))
            (Propagation.get_desc (Propagation.conv_src_mem l))
            [(Propagation.get_desc (Propagation.src_mem l),
              Propagation.contents st (Propagation.src_mem l))]
            (Propagation.get_desc (Propagation.conv_weights_mem l)) with
    | Ok data =>
        Ok (tt,
            {| Propagation.heap :=
                 <[Propagation.handle (Propagation.conv_weights_mem l) := data]>
                   (Propagation.heap st);
               Propagation.next_handle := Propagation.next_handle st;
               Propagation.history :=
                 Propagation.waited
                 :: Propagation.executed Propagation.reorder_k
                      [(Propagation.DNNL_ARG_FROM, Propagation.src_mem l);
                       (Propagation.DNNL_ARG_TO, Propagation.conv_weights_mem l)]
                 :: Propagation.history st |})
    | Throw e => Throw e
    end.
Proof.
  intros Hneed. unfold Propagation.reorder_source. rewrite Hneed.
  unfold mbind, Propagation.prog_bind, Propagation.execute, Propagation.wait.
  cbn.
  repeat first
    [ rewrite decide_True by reflexivity
    | rewrite decide_False by (vm_compute; discriminate) ].
  cbn. destruct (reorder_kernel _ _ _ _); reflexivity.
Qed.

(** The two scratch buffers of the convolution are never the same
    buffer. *)
Lemma conv_buffers_distinct (conv_pd pool_pd : Propagation.primitive_desc)
    (fresh_contents : Layout.memory_desc -> list Q)
    (l : Propagation.locals) (st : Propagation.engine) :
  Propagation.setup conv_pd pool_pd fresh_contents Propagation.empty_engine
  = Ok (l, st) ->
  Propagation.handle (Propagation.conv_weights_mem l)
  <> Propagation.handle (Propagation.conv_src_mem l) /\
  Propagation.heap st !! Propagation.handle (Propagation.conv_src_mem l)
  = Some (fresh_contents (Propagation.get_desc (Propagation.conv_src_mem l))).
Proof.
  destruct (setup_decides conv_pd pool_pd fresh_contents)
    as (l0 & st0 & Hrun & Hsrc & Hweights & Hdst & Hns & Hnw & Hnd & Hcs & Hcw
        & Hpool & Hheap & Hhist).
  rewrite Hrun. intros [= <- <-]. split; [| exact Hheap].
  rewrite Hcs, Hcw.
  destruct (Propagation.need_reorder_dst l0),
    (Propagation.need_reorder_weights l0); cbn; lia.
Qed.

(** C9: when [need_reorder_src] is set, the reorder of the source data is
    executed with [DNNL_ARG_TO] bound to [conv_weights_mem], a buffer
    other than [conv_src_mem]; if the library's kernel returns, its
    result lands in [conv_weights_mem] and [conv_src_mem] keeps the
    contents it was allocated with; if the kernel throws, so does the
    step. *)
Theorem source_reorder_writes_weights_buffer
    (conv_pd pool_pd : Propagation.primitive_desc)
    (fresh_contents : Layout.memory_desc -> list Q)
    (reorder_kernel :
       Layout.memory_desc -> Layout.memory_desc ->
       list (Layout.memory_desc * list Q) -> Layout.memory_desc -> outcome (list Q))
    (l : Propagation.locals) (st : Propagation.engine) :
  Propagation.setup conv_pd pool_pd fresh_contents Propagation.empty_engine
  = Ok (l, st) ->
  Propagation.need_reorder_src l = true ->
  Propagation.handle (Propagation.conv_weights_mem l)
  <> Propagation.handle (Propagation.conv_src_mem l) /\
  match reorder_kernel
          (Propagation.get_desc (Propagation.src_mem l))
          (Propagation.get_desc (Propagation.conv_src_mem l))
          [(Propagation.get_desc (Propagation.src_mem l),
            Propagation.contents st (Propagation.src_mem l))]
          (Propagation.get_desc (Propagation.conv_weights_mem l)) with
  | Ok data =>
      exists st' : Propagation.engine,
        Propagation.reorder_source reorder_kernel l st = Ok (tt, st') /\
        Propagation.history st'
        = Propagation.waited
          :: Propagation.executed Propagation.reorder_k
               [(Propagation.DNNL_ARG_FROM, Propagation.src_mem l);
                (Propagation.DNNL_ARG_TO, Propagation.conv_weights_mem l)]
          :: Propagation.history st /\
        Propagation.heap st' !! Propagation.handle (Propagation.conv_weights_mem l)
        = Some data /\
        Propagation.heap st' !! Propagation.handle (Propagation.conv_src_mem l)
        = Propagation.heap st !! Propagation.handle (Propagation.conv_src_mem l) /\
        Propagation.contents st' (Propagation.conv_src_mem l)
        = fresh_contents (Propagation.get_desc (Propagation.conv_src_mem l))
  | Throw e => Propagation.reorder_source reorder_kernel l st = Throw e
  end.
Proof.
  intros Hrun Hneed.
  destruct (conv_buffers_distinct _ _ _ _ _ Hrun) as [Hne Hheap].
  split; [exact Hne |].
  rewrite (reorder_source_run reorder_kernel l st Hneed).
  destruct (reorder_kernel _ _ _ _) as [data|e]; [| reflexivity].
  eexists. split; [reflexivity |]. cbn [Propagation.history Propagation.heap].
  split; [reflexivity |]. split; [apply lookup_insert_eq |].
  assert (Hframe :
    <[Propagation.handle (Propagation.conv_weights_mem l) := data]>
      (Propagation.heap st) !! Propagation.handle (Propagation.conv_src_mem l)
    = Propagation.heap st !! Propagation.handle (Propagation.conv_src_mem l))
    by (by apply lookup_insert_ne).
  split; [exact Hframe |].
  unfold Propagation.contents. cbn [Propagation.heap].
  rewrite Hframe, Hheap. reflexivity.
Qed.

Lemma source_reorder_writes_weights_buffer_witness :
  exists (l : Propagation.locals) (st st' : Propagation.engine),
    Propagation.setup Scenarios.conv_pd_nhwc Scenarios.pool_pd_nhwc
      Scenarios.zero_contents Propagation.empty_engine = Ok (l, st) /\
    Propagation.need_reorder_src l = true /\
    Propagation.handle (Propagation.conv_weights_mem l)
    <> Propagation.handle (Propagation.conv_src_mem l) /\
    Propagation.reorder_source Scenarios.copy_kernel l st = Ok (tt, st') /\
    Propagation.heap st' !! Propagation.handle (Propagation.conv_src_mem l)
    = Propagation.heap st !! Propagation.handle (Propagation.conv_src_mem l).
Proof.
  assert (Hsetup :
    exists (l : Propagation.locals) (st : Propagation.engine),
      Propagation.setup Scenarios.conv_pd_nhwc Scenarios.pool_pd_nhwc
        Scenarios.zero_contents Propagation.empty_engine = Ok (l, st) /\
      Propagation.need_reorder_src l = true).
  { eexists _, _. split; [vm_compute; reflexivity | reflexivity]. }
  destruct Hsetup as (l & st & Hrun & Hneed).
  destruct (source_reorder_writes_weights_buffer _ _ _ Scenarios.copy_kernel
              l st Hrun Hneed) as [Hne Hstep].
  unfold Scenarios.copy_kernel in Hstep.
  destruct Hstep as (st' & Hstep & _ & _ & Hframe & _).
  exists l, st, st'. repeat split; assumption.
Defined.

(** * Further properties of the getting-started example *)

Ltac unfold_valid :=
  unfold GettingStarted.valid_index, GettingStarted.N, GettingStarted.H,
    GettingStarted.W, GettingStarted.C in *.

(** X1: every offset the loops compute from a valid index tuple lies
    between 1 and 505, inside the 507-element image: the loops never
    index outside the buffer (and never touch offset 0 or 506). *)
Theorem loop_offsets_inside_image (n h w c : Z) :
  GettingStarted.valid_index n h w c ->
  1 <= GettingStarted.offset n h w c <= 505 /\
  (Z.to_nat (GettingStarted.offset n h w c)
   < length (replicate (Z.to_nat GettingStarted.image_size) 0%Q))%nat.
Proof.
  intros Hv. rewrite (offset_valid _ _ _ _ Hv), length_replicate.
  destruct strides_values as (_ & _ & _ & _ & ->).
  unfold_valid. lia.
Qed.

Lemma loop_offsets_inside_image_witness :
  GettingStarted.valid_index 0 12 12 2 /\
  1 <= GettingStarted.offset 0 12 12 2 <= 505.
Proof.
  assert (Hv : GettingStarted.valid_index 0 12 12 2) by (unfold_valid; lia).
  split; [exact Hv |]. exact (proj1 (loop_offsets_inside_image 0 12 12 2 Hv)).
Defined.

(** X2: on valid index tuples the lambda tells rows and columns apart and
    nothing else: two tuples get the same offset exactly when they agree
    on h and w. *)
Theorem offset_separates_rows_and_columns (n h w c n' h' w' c' : Z) :
  GettingStarted.valid_index n h w c ->
  GettingStarted.valid_index n' h' w' c' ->
  GettingStarted.offset n h w c = GettingStarted.offset n' h' w' c'
  <-> h = h' /\ w = w'.
Proof.
  intros Hv Hv'. rewrite (offset_valid _ _ _ _ Hv), (offset_valid _ _ _ _ Hv').
  unfold_valid. lia.
Qed.

Lemma offset_separates_rows_and_columns_witness :
  GettingStarted.offset 0 3 4 0 = GettingStarted.offset 0 3 4 2 /\
  GettingStarted.offset 0 3 4 0 <> GettingStarted.offset 0 4 3 0.
Proof.
  assert (Ha : GettingStarted.valid_index 0 3 4 0) by (unfold_valid; lia).
  assert (Hb : GettingStarted.valid_index 0 3 4 2) by (unfold_valid; lia).
  assert (Hc : GettingStarted.valid_index 0 4 3 0) by (unfold_valid; lia).
  split.
  - apply (offset_separates_rows_and_columns 0 3 4 0 0 3 4 2 Ha Hb). lia.
  - intros Heq.
    apply (offset_separates_rows_and_columns 0 3 4 0 0 4 3 0 Ha Hc) in Heq. lia.
Defined.

(** ** What the filling loops write *)

Lemma init_image_as_writes (wave : Z -> Q) (image : list Q) :
  GettingStarted.init_image wave image
  = Visits.writes wave Visits.visited_offsets image.
Proof. vm_compute. reflexivity. Qed.

Lemma visited_offsets_spec (off : Z) :
  off ∈ Visits.visited_offsets <->
  exists h w : Z, 0 <= h < 13 /\ 0 <= w < 13 /\ off = h * 39 + w * 3 + 1.
Proof.
  unfold Visits.visited_offsets. split.
  - intros Hin.
    apply list_elem_of_bind in Hin as (n & Hin & Hn).
    apply list_elem_of_bind in Hin as (h & Hin & Hh).
    apply list_elem_of_bind in Hin as (w & Hin & Hw).
    apply list_elem_of_bind in Hin as (c & Hin & Hc).
    apply list_elem_of_singleton in Hin.
    apply elem_of_seqZ in Hn, Hh, Hw, Hc.
    assert (Hv : GettingStarted.valid_index n h w c) by (unfold_valid; lia).
    rewrite (offset_valid _ _ _ _ Hv) in Hin.
    exists h, w. unfold_valid. lia.
  - intros (h & w & Hh & Hw & ->).
    assert (Hv : GettingStarted.valid_index 0 h w 0) by (unfold_valid; lia).
    apply list_elem_of_bind. exists 0. split; [| apply elem_of_seqZ; unfold_valid; lia].
    apply list_elem_of_bind. exists h. split; [| apply elem_of_seqZ; unfold_valid; lia].
    apply list_elem_of_bind. exists w. split; [| apply elem_of_seqZ; unfold_valid; lia].
    apply list_elem_of_bind. exists 0. split; [| apply elem_of_seqZ; unfold_valid; lia].
    apply list_elem_of_singleton. symmetry. apply (offset_valid _ _ _ _ Hv).
Qed.

Lemma writes_length (wave : Z -> Q) (offs : list Z) (image : list Q) :
  length (Visits.writes wave offs image) = length image.
Proof.
  unfold Visits.writes. revert image.
  induction offs as [|o offs IH]; intros image; simpl; [reflexivity |].
  rewrite IH. apply length_insert.
Qed.

Lemma read_write (image : list Q) (o off : Z) (x : Q) :
  0 <= o < Z.of_nat (length image) -> 0 <= off ->
  GettingStarted.read (GettingStarted.write image o x) off
  = if decide (off = o) then x else GettingStarted.read image off.
Proof.
  intros Ho Hoff. unfold GettingStarted.read, GettingStarted.write.
  destruct (decide (off = o)) as [-> | Hne].
  - rewrite list_lookup_insert_eq by lia. reflexivity.
  - rewrite list_lookup_insert_ne by lia. reflexivity.
Qed.

Lemma read_writes (wave : Z -> Q) (offs : list Z) (image : list Q) (off : Z) :
  (forall o, o ∈ offs -> 0 <= o < Z.of_nat (length image)) -> 0 <= off ->
  GettingStarted.read (Visits.writes wave offs image) off
  = if decide (off ∈ offs) then wave off else GettingStarted.read image off.
Proof.
  unfold Visits.writes. revert image.
  induction offs as [|o offs IH]; intros image Hin Hoff; cbn [foldl].
  - rewrite decide_False; [reflexivity | apply not_elem_of_nil].
  - rewrite IH; [| | exact Hoff].
    + destruct (decide (off ∈ offs)) as [Hmem | Hnot].
      * rewrite decide_True; [reflexivity | by right].
      * rewrite read_write; [| apply Hin; by left | exact Hoff].
        destruct (decide (off = o)) as [-> | Hne].
        -- rewrite decide_True; [reflexivity | by left].
        -- rewrite decide_False; [reflexivity |].
           intros Hmem. apply elem_of_cons in Hmem as [? | ?]; congruence.
    + intros o' Ho'. unfold GettingStarted.write. rewrite length_insert.
      apply Hin. by right.
Qed.

(** X3: on a 507-element image the filling loops keep the length, leave
    [wave off] at every offset [h * 39 + w * 3 + 1] with h, w below 13,
    and leave every other element as it was: two thirds of the image are
    never written. *)
Theorem init_image_writes_one_channel (wave : Z -> Q) (image : list Q) :
  length image = 507%nat ->
  length (GettingStarted.init_image wave image) = 507%nat /\
  (forall h w : Z, 0 <= h < 13 -> 0 <= w < 13 ->
     GettingStarted.read (GettingStarted.init_image wave image) (h * 39 + w * 3 + 1)
     = wave (h * 39 + w * 3 + 1)) /\
  (forall off : Z, 0 <= off ->
     (forall h w : Z, 0 <= h < 13 -> 0 <= w < 13 -> off <> h * 39 + w * 3 + 1) ->
     GettingStarted.read (GettingStarted.init_image wave image) off
     = GettingStarted.read image off).
Proof.
  intros Hlen. rewrite init_image_as_writes.
  assert (Hin : forall o, o ∈ Visits.visited_offsets ->
                  0 <= o < Z.of_nat (length image)).
  { intros o Ho. apply visited_offsets_spec in Ho as (h & w & Hh & Hw & ->). lia. }
  split; [by rewrite writes_length |]. split.
  - intros h w Hh Hw. rewrite read_writes by (try exact Hin; lia).
    rewrite decide_True; [reflexivity |].
    apply visited_offsets_spec. by exists h, w.
  - intros off Hoff Hnot. rewrite read_writes by (try exact Hin; lia).
    rewrite decide_False; [reflexivity |].
    intros Hmem. apply visited_offsets_spec in Hmem as (h & w & Hh & Hw & ->).
    by apply (Hnot h w).
Qed.

Lemma init_image_writes_one_channel_witness :
  GettingStarted.read
    (GettingStarted.init_image Scenarios.ramp Scenarios.blank_image) 1
  = Scenarios.ramp 1 /\
  GettingStarted.read
    (GettingStarted.init_image Scenarios.ramp Scenarios.blank_image) 2
  = GettingStarted.read Scenarios.blank_image 2.
Proof.
  destruct (init_image_writes_one_channel Scenarios.ramp Scenarios.blank_image)
    as (_ & Hwritten & Hkept); [reflexivity |].
  split.
  - apply (Hwritten 0 0); lia.
  - apply Hkept; [lia |]. intros h w Hh Hw. lia.
Defined.

(** ** What the checking loops accept, and how [main] ends *)

(** X4: the check passes exactly when the result is right at every offset
    [h * 39 + w * 3 + 1] with h, w below 13; no other element of either
    buffer has any influence on it. *)
Theorem check_passes_iff (image relu_image : list Q) :
  GettingStarted.check_result image relu_image = Ok tt <->
  (forall h w : Z, 0 <= h < 13 -> 0 <= w < 13 ->
     Qeq_bool (GettingStarted.read relu_image (h * 39 + w * 3 + 1))
              (GettingStarted.expected
                 (GettingStarted.read image (h * 39 + w * 3 + 1))) = true).
Proof.
  split.
  - intros Hpass h w Hh Hw.
    destruct (Qeq_bool _ _) eqn:Hcmp; [reflexivity |].
    rewrite (check_detects_read_offsets image relu_image h w Hh Hw Hcmp) in Hpass.
    discriminate Hpass.
  - apply check_reads_one_channel.
Qed.

Lemma read_map (f : Q -> Q) (v : list Q) (off : Z) :
  f 0%Q = 0%Q ->
  GettingStarted.read (map f v) off = f (GettingStarted.read v off).
Proof.
  intros Hzero. unfold GettingStarted.read.
  generalize (Z.to_nat off) as i. induction v as [|x v IH]; intros i.
  - simpl. by rewrite Hzero.
  - destruct i as [|i]; simpl; [reflexivity | apply IH].
Qed.

Lemma exact_relu_check (image : list Q) :
  GettingStarted.check_result image (map Scenarios.relu_value image) = Ok tt.
Proof.
  apply check_reads_one_channel. intros h w Hh Hw.
  rewrite read_map by reflexivity.
  generalize (GettingStarted.read image (h * 39 + w * 3 + 1)).
  intros x. apply Qeq_bool_refl.
Qed.

(** X5: when the library returns max(0, x) for every element, the
    example runs to its end and [main] returns exit code 0, whatever
    values the image is filled with. *)
Theorem exact_relu_passes (wave : Z -> Q) :
  GettingStarted.getting_started_tutorial wave Scenarios.relu_exact = Ok tt /\
  GettingStarted.main wave Scenarios.relu_exact = Exited 0.
Proof.
  assert (Hrun :
    GettingStarted.getting_started_tutorial wave Scenarios.relu_exact = Ok tt).
  { unfold GettingStarted.getting_started_tutorial.
    rewrite descriptor_check_passes. unfold Scenarios.relu_exact.
    cbn [mbind outcome_bind]. apply exact_relu_check. }
  split; [exact Hrun |]. unfold GettingStarted.main. by rewrite Hrun.
Qed.

(** X6: [main] returns an exit code only in three ways: 0 after a check
    that passed, 1 after a [dnnl::error] of the library, 2 after a thrown
    [std::string]; a failed check never leads to a return from [main]. *)
Theorem main_exit_codes (wave : Z -> Q) (relu_execute : list Q -> outcome (list Q))
    (code : Z) :
  let image :=
    GettingStarted.init_image wave
      (replicate (Z.to_nat GettingStarted.image_size) 0%Q) in
  GettingStarted.main wave relu_execute = Exited code ->
  (code = 0 /\ exists relu_image,
     relu_execute image = Ok relu_image /\
     GettingStarted.check_result image relu_image = Ok tt) \/
  (code = 1 /\ exists status, relu_execute image = Throw (dnnl_error status)) \/
  (code = 2 /\ exists what, relu_execute image = Throw (string_exn what)).
Proof.
  intros image. unfold GettingStarted.main, GettingStarted.getting_started_tutorial.
  fold image. rewrite descriptor_check_passes. cbn [mbind outcome_bind].
  destruct (relu_execute image) as [relu_image | [status | what | what]];
    cbn [mbind outcome_bind].
  - destruct (check_result_outcomes image relu_image) as [Hpass | Hthrow].
    + rewrite Hpass. intros [= <-]. left. split; [reflexivity |]. by exists relu_image.
    + rewrite Hthrow. discriminate.
  - intros [= <-]. right. left. split; [reflexivity |]. by exists status.
  - discriminate.
  - intros [= <-]. right. right. split; [reflexivity |]. by exists what.
Qed.

Lemma main_exit_codes_witness :
  GettingStarted.main Scenarios.ramp Scenarios.relu_exact = Exited 0 /\
  exists relu_image,
    Scenarios.relu_exact
      (GettingStarted.init_image Scenarios.ramp
         (replicate (Z.to_nat GettingStarted.image_size) 0%Q)) = Ok relu_image.
Proof.
  assert (Hmain : GettingStarted.main Scenarios.ramp Scenarios.relu_exact = Exited 0)
    by (vm_compute; reflexivity).
  split; [exact Hmain |].
  destruct (main_exit_codes Scenarios.ramp Scenarios.relu_exact 0 Hmain)
    as [(_ & relu_image & Hrun & _) | [(Hone & _) | (Htwo & _)]].
  - by exists relu_image.
  - discriminate Hone.
  - discriminate Htwo.
Defined.

(** * Further properties of the INT8 matmul example *)

Lemma lor_bits (r1 r2 : Z) :
  (r1 = 0 \/ r1 = 1) -> (r2 = 0 \/ r2 = 1) ->
  (Z.lor (Z.lor 0 r1) r2 = 0 \/ Z.lor (Z.lor 0 r1) r2 = 1) /\
  (Z.lor (Z.lor 0 r1) r2 = 0 <-> r1 = 0 /\ r2 = 0).
Proof. intros [-> | ->] [-> | ->]; vm_compute; intuition discriminate. Qed.

Lemma check_from_passes (count : nat) (C_u8 : list Z) :
  Int8Matmul.check_from count 0 C_u8 = 0 <->
  (forall i, 0 <= i < Z.of_nat count -> Int8Matmul.zp_C <= Int8Matmul.readZ C_u8 i).
Proof.
  split.
  - intros Hzero i Hi.
    destruct (Z.lt_ge_cases (Int8Matmul.readZ C_u8 i) Int8Matmul.zp_C)
      as [Hlt | Hge]; [| exact Hge].
    rewrite (check_from_detects count 0 i C_u8) in Hzero by (lia || exact Hlt).
    discriminate Hzero.
  - intros Hall. rewrite check_from_decide.
    rewrite decide_True; [reflexivity |].
    apply Forall_forall. intros i Hi. apply elem_of_seqZ in Hi.
    apply Hall. lia.
Qed.

(** X7: when the library returns from the weights reorder and from both
    matmul executions, the example returns 0 or 1, and it returns 0
    exactly when every one of the 1000 elements of the M = 1 output and
    every one of the 100000 elements of the M = 100 output is at least
    [zp_C]; a failure for M = 1 is kept across the run for M = 100. *)
Theorem verdict_covers_both_runs
    (exec : Z -> Z -> Z -> list Z -> list Z -> list Q -> Z -> Z -> outcome (list Z))
    (reorder : list Q -> outcome (list Z)) (d : Int8Matmul.draws)
    (B_s8 C_1 C_100 : list Z) :
  reorder (Int8Matmul.B_f32 d) = Ok B_s8 ->
  exec 1 1000 96 (Int8Matmul.A_u8_of d 1) B_s8 (Int8Matmul.scales_f32_of d 1)
    Int8Matmul.zp_A Int8Matmul.zp_C = Ok C_1 ->
  exec 100 1000 96 (Int8Matmul.A_u8_of d 100) B_s8 (Int8Matmul.scales_f32_of d 100)
    Int8Matmul.zp_A Int8Matmul.zp_C = Ok C_100 ->
  exists rc : Z,
    Int8Matmul.inference_int8_matmul exec reorder d = Ok rc /\
    (rc = 0 \/ rc = 1) /\
    (rc = 0 <->
     (forall i, 0 <= i < 1000 -> Int8Matmul.zp_C <= Int8Matmul.readZ C_1 i) /\
     (forall i, 0 <= i < 100000 -> Int8Matmul.zp_C <= Int8Matmul.readZ C_100 i)).
Proof.
  intros Hreorder Hrun1 Hrun100.
  set (r1 := Int8Matmul.check_from (Z.to_nat (1 * 1000)) 0 C_1).
  set (r2 := Int8Matmul.check_from (Z.to_nat (100 * 1000)) 0 C_100).
  exists (Z.lor (Z.lor 0 r1) r2).
  destruct (lor_bits r1 r2) as [Hbit Hzero]; try apply check_from_bit.
  split; [| split; [exact Hbit |]].
  - unfold Int8Matmul.inference_int8_matmul. rewrite Hreorder.
    cbn [mbind outcome_bind].
    apply infer_all_two.
    + rewrite infer_unfold, Hrun1 by lia. reflexivity.
    + rewrite infer_unfold, Hrun100 by lia. reflexivity.
  - rewrite Hzero. unfold r1, r2. rewrite !check_from_passes.
    rewrite !Z2Nat.id by lia. reflexivity.
Qed.

Lemma verdict_covers_both_runs_witness :
  exists rc : Z,
    Int8Matmul.inference_int8_matmul Scenarios.matmul_zero Scenarios.reorder_zero
      Scenarios.no_draws = Ok rc /\
    (rc = 0 \/ rc = 1).
Proof.
  destruct (verdict_covers_both_runs Scenarios.matmul_zero Scenarios.reorder_zero
              Scenarios.no_draws []
              (replicate (Z.to_nat (1 * 1000)) 0)
              (replicate (Z.to_nat (100 * 1000)) 0) eq_refl eq_refl eq_refl)
    as (rc & Hrun & Hbit & _).
  exists rc. split; assumption.
Defined.

(** X8: a [dnnl::error] thrown by the second matmul execution is caught
    by [main], which then prints no verdict and returns 0, also when the
    check for M = 1 had already failed: that failure is lost. *)
Theorem error_in_second_run_hides_first_verdict
    (exec : Z -> Z -> Z -> list Z -> list Z -> list Q -> Z -> Z -> outcome (list Z))
    (reorder : list Q -> outcome (list Z)) (d : Int8Matmul.draws)
    (B_s8 C_1 : list Z) (status : Z) :
  reorder (Int8Matmul.B_f32 d) = Ok B_s8 ->
  exec 1 1000 96 (Int8Matmul.A_u8_of d 1) B_s8 (Int8Matmul.scales_f32_of d 1)
    Int8Matmul.zp_A Int8Matmul.zp_C = Ok C_1 ->
  exec 100 1000 96 (Int8Matmul.A_u8_of d 100) B_s8 (Int8Matmul.scales_f32_of d 100)
    Int8Matmul.zp_A Int8Matmul.zp_C = Throw (dnnl_error status) ->
  Int8Matmul.inference_int8_matmul exec reorder d = Throw (dnnl_error status) /\
  Int8Matmul.main exec reorder d
  = {| Int8Matmul.stdout := []; Int8Matmul.ending := Exited 0 |}.
Proof.
  intros Hreorder Hrun1 Hrun100.
  assert (Hrun : Int8Matmul.inference_int8_matmul exec reorder d
                 = Throw (dnnl_error status)).
  { unfold Int8Matmul.inference_int8_matmul. rewrite Hreorder.
    cbn [mbind outcome_bind Int8Matmul.infer_all].
    rewrite !infer_unfold, Hrun1 by lia. cbn [mbind outcome_bind].
    rewrite Hrun100. reflexivity. }
  split; [exact Hrun |]. unfold Int8Matmul.main. by rewrite Hrun.
Qed.

Lemma error_in_second_run_hides_first_verdict_witness :
  Int8Matmul.infer Faults.matmul_throws_after_first 1 1000 96 [] [] [] = Ok 1 /\
  Int8Matmul.main Faults.matmul_throws_after_first Scenarios.reorder_zero
    Scenarios.no_draws
  = {| Int8Matmul.stdout := []; Int8Matmul.ending := Exited 0 |}.
Proof.
  split; [vm_compute; reflexivity |].
  apply (error_in_second_run_hides_first_verdict Faults.matmul_throws_after_first
           Scenarios.reorder_zero Scenarios.no_draws []
           (replicate (Z.to_nat (1 * 1000)) 0) 5);
    reflexivity.
Defined.



(** * Further properties of the memory format propagation example *)

(** Runs [setup] by cases on the two descriptor comparisons that decide
    allocations, leaving the facts about the result to compute. *)
Ltac run_setup conv_pd :=
  rewrite setup_unfold; unfold Propagation.allocate_intermediate;
  change (Propagation.get_desc Propagation.user_src) with Propagation.user_src_desc;
  change (Propagation.get_desc Propagation.user_weights)
    with Propagation.user_weights_desc;
  change (Propagation.get_desc Propagation.user_dst) with Propagation.user_dst_desc;
  destruct (bool_decide (Propagation.dst_desc conv_pd = Propagation.user_dst_desc))
    eqn:Hdst;
  destruct (bool_decide
              (Propagation.weights_desc conv_pd = Propagation.user_weights_desc))
    eqn:Hweights;
  eexists _, _; (split; [vm_compute; reflexivity |]).

(** Runs the whole tutorial by cases on the three descriptor
    comparisons. *)
Ltac run_tutorial conv_pd :=
  unfold Propagation.memory_format_propagation_tutorial;
  unfold mbind at 1; unfold Propagation.prog_bind at 1;
  rewrite create_user_memory_run;
  unfold Propagation.allocate_intermediate;
  change (Propagation.get_desc Propagation.user_src) with Propagation.user_src_desc;
  change (Propagation.get_desc Propagation.user_weights)
    with Propagation.user_weights_desc;
  change (Propagation.get_desc Propagation.user_dst) with Propagation.user_dst_desc;
  destruct (bool_decide (Propagation.dst_desc conv_pd = Propagation.user_dst_desc));
  destruct (bool_decide
              (Propagation.weights_desc conv_pd = Propagation.user_weights_desc));
  destruct (bool_decide (Propagation.src_desc conv_pd = Propagation.user_src_desc));
  eexists _, _; (split; [vm_compute; reflexivity |]).

(** X10: the weights buffer of the convolution is the user's
    [weights_mem] exactly when the library reports the user's weights
    descriptor, and the pooling destination is the user's [dst_mem]
    exactly when the convolution reports the user's destination
    descriptor; the convolution destination is always a new buffer. *)
Theorem weights_and_destination_reused_iff
    (conv_pd pool_pd : Propagation.primitive_desc)
    (fresh_contents : Layout.memory_desc -> list Q) :
  exists (l : Propagation.locals) (st : Propagation.engine),
    Propagation.setup conv_pd pool_pd fresh_contents Propagation.empty_engine
    = Ok (l, st) /\
    (Propagation.conv_weights_mem l = Propagation.weights_mem l
     <-> Propagation.weights_desc conv_pd = Propagation.user_weights_desc) /\
    (Propagation.pool_dst_mem l = Propagation.dst_mem l
     <-> Propagation.dst_desc conv_pd = Propagation.user_dst_desc) /\
    Propagation.get_desc (Propagation.conv_dst_mem l) = Propagation.dst_desc conv_pd /\
    (3 <= Propagation.handle (Propagation.conv_dst_mem l))%nat.
Proof.
  run_setup conv_pd;
    apply bool_decide_eq_true in Hdst || apply bool_decide_eq_false in Hdst;
    apply bool_decide_eq_true in Hweights
    || apply bool_decide_eq_false in Hweights;
    cbn; repeat split; try (intros; assumption); try lia; try done.
Qed.

(** X11: after [setup] the four buffers the convolution and the pooling
    work on are four different buffers, each below the next free handle
    and still holding the contents it was created with. *)
Theorem intermediate_buffers_distinct
    (conv_pd pool_pd : Propagation.primitive_desc)
    (fresh_contents : Layout.memory_desc -> list Q) :
  exists (l : Propagation.locals) (st : Propagation.engine),
    Propagation.setup conv_pd pool_pd fresh_contents Propagation.empty_engine
    = Ok (l, st) /\
    NoDup [Propagation.handle (Propagation.conv_src_mem l);
           Propagation.handle (Propagation.conv_weights_mem l);
           Propagation.handle (Propagation.conv_dst_mem l);
           Propagation.handle (Propagation.pool_dst_mem l)] /\
    Forall (fun m =>
              (Propagation.handle m < Propagation.next_handle st)%nat /\
              Propagation.heap st !! Propagation.handle m
              = Some (fresh_contents (Propagation.get_desc m)))
           [Propagation.conv_src_mem l; Propagation.conv_weights_mem l;
            Propagation.conv_dst_mem l; Propagation.pool_dst_mem l].
Proof.
  run_setup conv_pd;
    (split;
     [ cbn; repeat (apply NoDup_cons; split;
                    [rewrite ?elem_of_cons, elem_of_nil; lia |]);
       apply NoDup_nil_2
     | repeat (apply Forall_cons; split; [split; [cbn; lia | reflexivity] |]);
       apply Forall_nil_2 ]).
Qed.

(** ** The whole run, with kernels that return *)

(** X12: when every kernel returns, the tutorial runs to its end, and at
    the end the source buffer of the convolution still holds the
    contents it was created with, whatever the three flags: no step of
    the run writes it, so the convolution never sees reordered source
    data. The user's [src_mem] is not written either. *)
Theorem convolution_source_never_written
    (conv_pd pool_pd : Propagation.primitive_desc)
    (fresh_contents : Layout.memory_desc -> list Q)
    (fr : Layout.memory_desc -> Layout.memory_desc ->
          list (Layout.memory_desc * list Q) -> Layout.memory_desc -> list Q)
    (fc fp : list (Layout.memory_desc * list Q) -> Layout.memory_desc -> list Q) :
  exists (l : Propagation.locals) (st : Propagation.engine),
    Propagation.memory_format_propagation_tutorial conv_pd pool_pd fresh_contents
      (Returning.reorder_of fr) (Returning.kernel_of fc) (Returning.kernel_of fp)
      Propagation.empty_engine = Ok (l, st) /\
    Propagation.contents st (Propagation.conv_src_mem l)
    = fresh_contents (Propagation.get_desc (Propagation.conv_src_mem l)) /\
    Propagation.contents st (Propagation.src_mem l)
    = fresh_contents Propagation.user_src_desc.
Proof.
  run_tutorial conv_pd; split; vm_compute; reflexivity.
Qed.

(** X13: at the end of the run the user's [weights_mem] holds the output
    of the source reorder when the source needs a reorder and the
    weights do not; in every other case it holds what it was created
    with. *)
Theorem source_reorder_overwrites_user_weights
    (conv_pd pool_pd : Propagation.primitive_desc)
    (fresh_contents : Layout.memory_desc -> list Q)
    (fr : Layout.memory_desc -> Layout.memory_desc ->
          list (Layout.memory_desc * list Q) -> Layout.memory_desc -> list Q)
    (fc fp : list (Layout.memory_desc * list Q) -> Layout.memory_desc -> list Q) :
  exists (l : Propagation.locals) (st : Propagation.engine),
    Propagation.memory_format_propagation_tutorial conv_pd pool_pd fresh_contents
      (Returning.reorder_of fr) (Returning.kernel_of fc) (Returning.kernel_of fp)
      Propagation.empty_engine = Ok (l, st) /\
    Propagation.need_reorder_src l
    = negb (bool_decide (Propagation.src_desc conv_pd = Propagation.user_src_desc)) /\
    Propagation.need_reorder_weights l
    = negb (bool_decide
              (Propagation.weights_desc conv_pd = Propagation.user_weights_desc)) /\
    Propagation.contents st (Propagation.weights_mem l)
    = if Propagation.need_reorder_src l && negb (Propagation.need_reorder_weights l)
      then fr Propagation.user_src_desc
             (Propagation.get_desc (Propagation.conv_src_mem l))
             [(Propagation.user_src_desc,
               fresh_contents Propagation.user_src_desc)]
             Propagation.user_weights_desc
      else fresh_contents Propagation.user_weights_desc.
Proof.
  run_tutorial conv_pd; repeat split; vm_compute; reflexivity.
Qed.

(** X14: at the end of the run each stage holds its kernel applied to
    what its inputs hold: the convolution destination is the convolution
    of the contents of [conv_src_mem] and [conv_weights_mem], the pooling
    destination is the pooling of that, and the user's [dst_mem] holds
    the pooling output, reordered when [need_reorder_dst] is set and
    written in place otherwise. *)
Theorem destination_receives_pipeline_output
    (conv_pd pool_pd : Propagation.primitive_desc)
    (fresh_contents : Layout.memory_desc -> list Q)
    (fr : Layout.memory_desc -> Layout.memory_desc ->
          list (Layout.memory_desc * list Q) -> Layout.memory_desc -> list Q)
    (fc fp : list (Layout.memory_desc * list Q) -> Layout.memory_desc -> list Q) :
  exists (l : Propagation.locals) (st : Propagation.engine),
    Propagation.memory_format_propagation_tutorial conv_pd pool_pd fresh_contents
      (Returning.reorder_of fr) (Returning.kernel_of fc) (Returning.kernel_of fp)
      Propagation.empty_engine = Ok (l, st) /\
    Propagation.contents st (Propagation.conv_dst_mem l)
    = fc [(Propagation.get_desc (Propagation.conv_src_mem l),
           Propagation.contents st (Propagation.conv_src_mem l));
          (Propagation.get_desc (Propagation.conv_weights_mem l),
           Propagation.contents st (Propagation.conv_weights_mem l))]
         (Propagation.dst_desc conv_pd) /\
    Propagation.contents st (Propagation.pool_dst_mem l)
    = (if Propagation.need_reorder_dst l
       then fp [(Propagation.dst_desc conv_pd,
                 Propagation.contents st (Propagation.conv_dst_mem l))]
               (Propagation.dst_desc pool_pd)
       else fp [(Propagation.dst_desc conv_pd,
                 Propagation.contents st (Propagation.conv_dst_mem l))]
               Propagation.user_dst_desc) /\
    Propagation.contents st (Propagation.dst_mem l)
    = (if Propagation.need_reorder_dst l
       then fr (Propagation.dst_desc pool_pd) Propagation.user_dst_desc
              [(Propagation.dst_desc pool_pd,
                Propagation.contents st (Propagation.pool_dst_mem l))]
              Propagation.user_dst_desc
       else Propagation.contents st (Propagation.pool_dst_mem l)).
Proof.
  run_tutorial conv_pd; repeat split; vm_compute; reflexivity.
Qed.

(** X17: whenever the weights need a reorder, the weights buffer of the
    convolution ends up holding the reorder of the user's weights, also
    when the source reorder had written into that buffer before. *)
Theorem weights_reorder_reaches_convolution
    (conv_pd pool_pd : Propagation.primitive_desc)
    (fresh_contents : Layout.memory_desc -> list Q)
    (fr : Layout.memory_desc -> Layout.memory_desc ->
          list (Layout.memory_desc * list Q) -> Layout.memory_desc -> list Q)
    (fc fp : list (Layout.memory_desc * list Q) -> Layout.memory_desc -> list Q) :
  exists (l : Propagation.locals) (st : Propagation.engine),
    Propagation.memory_format_propagation_tutorial conv_pd pool_pd fresh_contents
      (Returning.reorder_of fr) (Returning.kernel_of fc) (Returning.kernel_of fp)
      Propagation.empty_engine = Ok (l, st) /\
    Propagation.need_reorder_weights l
    = negb (bool_decide
              (Propagation.weights_desc conv_pd = Propagation.user_weights_desc)) /\
    (if Propagation.need_reorder_weights l
     then Propagation.contents st (Propagation.conv_weights_mem l)
          = fr Propagation.user_weights_desc (Propagation.weights_desc conv_pd)
              [(Propagation.user_weights_desc,
                fresh_contents Propagation.user_weights_desc)]
              (Propagation.weights_desc conv_pd)
     else Propagation.conv_weights_mem l = Propagation.weights_mem l).
Proof.
  run_tutorial conv_pd; repeat split; vm_compute; reflexivity.
Qed.

(** X15: the primitives run in the order source reorder (if needed),
    weights reorder (if needed), convolution, pooling, destination
    reorder (if needed); the run waits after each of the first two
    reorders and after the pooling, and the destination reorder, when
    there is one, is the last action: nothing waits for it. *)
Theorem primitives_run_in_order
    (conv_pd pool_pd : Propagation.primitive_desc)
    (fresh_contents : Layout.memory_desc -> list Q)
    (fr : Layout.memory_desc -> Layout.memory_desc ->
          list (Layout.memory_desc * list Q) -> Layout.memory_desc -> list Q)
    (fc fp : list (Layout.memory_desc * list Q) -> Layout.memory_desc -> list Q) :
  exists (l : Propagation.locals) (st : Propagation.engine),
    Propagation.memory_format_propagation_tutorial conv_pd pool_pd fresh_contents
      (Returning.reorder_of fr) (Returning.kernel_of fc) (Returning.kernel_of fp)
      Propagation.empty_engine = Ok (l, st) /\
    omap (fun e => match e with
                   | Propagation.executed k _ => Some (inl k)
                   | Propagation.waited => Some (inr tt)
                   | Propagation.allocated _ => None
                   end) (rev (Propagation.history st))
    = (if Propagation.need_reorder_src l
       then [inl Propagation.reorder_k; inr tt] else [])
      ++ (if Propagation.need_reorder_weights l
          then [inl Propagation.reorder_k; inr tt] else [])
      ++ [inl Propagation.convolution_k; inl Propagation.pooling_k; inr tt]
      ++ (if Propagation.need_reorder_dst l
          then [inl Propagation.reorder_k] else []) /\
    head (Propagation.history st)
    = Some (if Propagation.need_reorder_dst l
            then Propagation.executed Propagation.reorder_k
                   [(Propagation.DNNL_ARG_FROM, Propagation.pool_dst_mem l);
                    (Propagation.DNNL_ARG_TO, Propagation.dst_mem l)]
            else Propagation.waited).
Proof.
  run_tutorial conv_pd; split; vm_compute; reflexivity.
Qed.

(** ** A kernel that throws *)

Lemma tutorial_after_setup (conv_pd pool_pd : Propagation.primitive_desc)
    (fresh_contents : Layout.memory_desc -> list Q)
    (rk : Layout.memory_desc -> Layout.memory_desc ->
          list (Layout.memory_desc * list Q) -> Layout.memory_desc ->
          outcome (list Q))
    (ck pk : list (Layout.memory_desc * list Q) -> Layout.memory_desc ->
             outcome (list Q))
    (l : Propagation.locals) (st : Propagation.engine) :
  Propagation.setup conv_pd pool_pd fresh_contents Propagation.empty_engine
  = Ok (l, st) ->
  Propagation.memory_format_propagation_tutorial conv_pd pool_pd fresh_contents
    rk ck pk Propagation.empty_engine
  = (Propagation.reorder_source rk l;;
     Propagation.reorder_weights_step rk l;;
     Propagation.convolution_and_pooling conv_pd pool_pd fresh_contents ck pk l;;
     Propagation.reorder_destination rk l;;
     mret l) st.
Proof.
  rewrite setup_unfold. intros Hrun.
  unfold Propagation.memory_format_propagation_tutorial.
  unfold mbind at 1. unfold Propagation.prog_bind at 1.
  rewrite create_user_memory_run.
  unfold mbind at 1. unfold Propagation.prog_bind at 1.
  rewrite Hrun. reflexivity.
Qed.

(** X16: when the library reports a source descriptor other than the
    user's and the reorder kernel throws on the source data, the whole
    tutorial ends with that exception: neither the convolution nor the
    pooling is run. *)
Theorem failing_source_reorder_stops_tutorial
    (conv_pd pool_pd : Propagation.primitive_desc)
    (fresh_contents : Layout.memory_desc -> list Q)
    (rk : Layout.memory_desc -> Layout.memory_desc ->
          list (Layout.memory_desc * list Q) -> Layout.memory_desc ->
          outcome (list Q))
    (ck pk : list (Layout.memory_desc * list Q) -> Layout.memory_desc ->
             outcome (list Q))
    (e : exn) :
  Propagation.src_desc conv_pd <> Propagation.user_src_desc ->
  (forall to ins out, rk Propagation.user_src_desc to ins out = Throw e) ->
  Propagation.memory_format_propagation_tutorial conv_pd pool_pd fresh_contents
    rk ck pk Propagation.empty_engine = Throw e.
Proof.
  intros Hdiff Hthrow.
  destruct (setup_decides conv_pd pool_pd fresh_contents)
    as (l & st & Hrun & Hsrc & _ & _ & Hns & _).
  rewrite (tutorial_after_setup _ _ _ rk ck pk l st Hrun).
  unfold mbind at 1. unfold Propagation.prog_bind at 1.
  rewrite reorder_source_run
    by (rewrite Hns; by rewrite bool_decide_eq_false_2).
  rewrite Hsrc. cbn [Propagation.get_desc Propagation.user_src].
  by rewrite Hthrow.
Qed.

Lemma failing_source_reorder_stops_tutorial_witness :
  Propagation.memory_format_propagation_tutorial Scenarios.conv_pd_nhwc
    Scenarios.pool_pd_nhwc Scenarios.zero_contents Faults.reorder_throws
    (Scenarios.copy_kernel Scenarios.no_scratchpad Scenarios.no_scratchpad)
    (Scenarios.copy_kernel Scenarios.no_scratchpad Scenarios.no_scratchpad) Propagation.empty_engine
  = Throw (dnnl_error 5).
Proof.
  apply failing_source_reorder_stops_tutorial.
  - vm_compute. discriminate.
  - reflexivity.
Defined.
